(** * Deploy-to-Grading: the pipeline driver [scripts/deploy_to_grading.py]

    The driver is a straight-line script: it loads [assignment.yml],
    checks the submission out at the due date, overrides the repository
    from the template, evaluates every task (load, override, metrics,
    evaluation), packages and prints the results and reverts the checkout.
    Every step is a call to an external program or to the YAML loader.

    The embedding is a state-and-error monad over
    - the outside world (file system, repository), which only the external
      programs change and which the loader and [os.path.exists] read;
    - [os.environ];
    - the heap of dictionaries the loader returned (Python passes them by
      reference);
    - the trace of everything the driver did that is visible outside:
      printed lines, loads, file probes and started processes. *)

From Stdlib Require Import ZArith Ascii String.
From stdpp Require Import gmap strings list fin_maps.

Local Open Scope string_scope.
Local Open Scope list_scope.
Local Open Scope Z_scope.

(** ** Python strings and paths *)

(** [s.split(" ")]: cut at every single space; the empty string gives
    one empty field. *)
Fixpoint str_split_space (s : string) : list string :=
  match s with
  | EmptyString => [""]
  | String c rest =>
      if Ascii.eqb c " "%char then "" :: str_split_space rest
      else match str_split_space rest with
           | field :: fields => String c field :: fields
           | [] => [String c ""]
           end
  end.

Fixpoint ends_with_slash (s : string) : bool :=
  match s with
  | EmptyString => false
  | String c EmptyString => Ascii.eqb c "/"%char
  | String _ rest => ends_with_slash rest
  end.

Definition starts_with_slash (s : string) : bool :=
  match s with
  | String c _ => Ascii.eqb c "/"%char
  | EmptyString => false
  end.

(** [os.path.join(a, b)] of posixpath, for two components. *)
Definition os_path_join (a b : string) : string :=
  if starts_with_slash b then b
  else if (String.eqb a "" || ends_with_slash a)%bool then a +:+ b
  else a +:+ "/" +:+ b.

(** ["%s" % x] for [x] a string or [None]. *)
Definition pystr (x : option string) : string :=
  match x with Some s => s | None => "None" end.

(** Truth value of a string or [None]: [None] and [""] are false. *)
Definition truthy (x : option string) : bool :=
  match x with
  | Some s => negb (String.eqb s "")
  | None => false
  end.

(** ** Exceptions, events, outcomes *)

Abbreviation dict := (gmap string string).

Inductive exn :=
| KeyError (key : string)
| TypeError (msg : string)
| FileNotFoundError
| YAMLError
| OtherError (name : string).

(** What the driver does that the outside can see, with the answer it
    got. *)
Inductive event :=
| EPrint (line : string)
| ELoad (path : string) (prefix : option string) (res : dict + exn)
| EExists (path : string) (res : bool)
| ERun (argv : list string) (cwd : option string) (env : option dict)
       (res : Z + exn).

Inductive outcome (A : Type) :=
| Done (a : A)
| Exit (code : Z)
| Raise (e : exn).
Arguments Done {A} a.
Arguments Exit {A} code.
Arguments Raise {A} e.

(** Exit status of the interpreter process: 0 when the script runs to
    its end, the low byte of the argument of [exit], 1 after an uncaught
    exception. *)
Definition exit_status {A} (o : outcome A) : Z :=
  match o with
  | Done _ => 0
  | Exit code => code mod 256
  | Raise _ => 1
  end.

Abbreviation loc := nat.

Record state (W : Type) := State {
  world : W;
  environ : dict;
  heap : list dict;
  trace : list event
}.
Arguments State {W}.
Arguments world {W}.
Arguments environ {W}.
Arguments heap {W}.
Arguments trace {W}.

Definition M (W A : Type) : Type := state W → outcome A * state W.

Definition ret {W A} (a : A) : M W A := λ s, (Done a, s).

Definition bind {W A B} (m : M W A) (k : A → M W B) : M W B :=
  λ s, match m s with
       | (Done a, s') => k a s'
       | (Exit code, s') => (Exit code, s')
       | (Raise e, s') => (Raise e, s')
       end.

Declare Scope py_scope.
Delimit Scope py_scope with py.
Notation "x <- m ;; k" := (bind m (λ x, k))
  (at level 100, m at next level, right associativity) : py_scope.
Notation "m ;; k" := (bind m (λ _, k))
  (at level 100, right associativity) : py_scope.
Local Open Scope py_scope.

Definition raise {W A} (e : exn) : M W A := λ s, (Raise e, s).

(** [exit(code)]: [SystemExit] is not caught anywhere in the script. *)
Definition exit {W A} (code : Z) : M W A := λ s, (Exit code, s).

Definition emit {W} (e : event) (s : state W) : state W :=
  State (world s) (environ s) (heap s) (trace s ++ [e]).

Definition set_world {W} (w : W) (s : state W) : state W :=
  State w (environ s) (heap s) (trace s).

Definition alloc {W} (d : dict) (s : state W) : state W :=
  State (world s) (environ s) (heap s ++ [d]) (trace s).

Definition print {W} (line : string) : M W unit :=
  λ s, (Done tt, emit (EPrint line) s).

(** [try: body except (FileNotFoundError, YAMLError): handler]. *)
Definition caught (e : exn) : bool :=
  match e with
  | FileNotFoundError | YAMLError => true
  | _ => false
  end.

Definition try_except {W A} (body : M W A) (handler : exn → M W A) : M W A :=
  λ s, match body s with
       | (Raise e, s') => if caught e then handler e s' else (Raise e, s')
       | r => r
       end.

(** [for x in xs: body(x)] *)
Fixpoint for_each {W A} (xs : list A) (body : A → M W unit) : M W unit :=
  match xs with
  | [] => ret tt
  | x :: rest => body x ;; for_each rest body
  end.

(** [os.environ[key]] *)
Definition os_environ_get {W} (key : string) : M W string :=
  λ s, match environ s !! key with
       | Some v => (Done v, s)
       | None => (Raise (KeyError key), s)
       end.

(** The dictionary behind a reference. *)
Definition deref {W} (l : loc) : M W dict :=
  λ s, match heap s !! l with
       | Some d => (Done d, s)
       | None => (Raise (OtherError "dangling reference"), s)
       end.

(** [conf[key]] *)
Definition getitem {W} (conf : loc) (key : string) : M W string :=
  d <- deref conf ;;
  match d !! key with
  | Some v => ret v
  | None => raise (KeyError key)
  end.

(** [dict(os.environ, **a)]: a new dictionary, [a] over the environment. *)
Definition dict_environ1 {W} (a : loc) : M W dict :=
  da <- deref a ;;
  λ s, (Done (da ∪ environ s), s).

(** [dict(os.environ, **a, **b)]: the call merges the keyword arguments
    first and refuses a keyword given twice. *)
Definition dict_environ2 {W} (a b : loc) : M W dict :=
  da <- deref a ;;
  db <- deref b ;;
  if decide (da ##ₘ db)
  then λ s, (Done (db ∪ da ∪ environ s), s)
  else raise (TypeError "dict() got multiple values for keyword argument").


(** ** Sample worlds

    Concrete collaborators on which the statements below are exercised.
    The world is the number of processes started so far; files and
    failing programs are given by lists. *)

Definition ascii_upper (c : ascii) : ascii :=
  let n := nat_of_ascii c in
  if ((97 <=? n)%nat && (n <=? 122)%nat)%bool then ascii_of_nat (n - 32) else c.

Fixpoint sample_upper (s : string) : string :=
  match s with
  | EmptyString => EmptyString
  | String c rest => String (ascii_upper c) (sample_upper rest)
  end.

Fixpoint assoc {A} (key : string) (l : list (string * A)) : option A :=
  match l with
  | [] => None
  | (k, v) :: rest => if String.eqb k key then Some v else assoc key rest
  end.

(** The loader finds the files of [files] and no other. *)
Definition sample_load (files : list (string * dict)) (path : string)
    (prefix : option string) (w : nat) : dict + exn :=
  match assoc path files with
  | Some d => inl d
  | None => inr FileNotFoundError
  end.

Definition sample_exists (present : list string) (path : string) (w : nat)
  : bool :=
  bool_decide (path ∈ present).

(** Every program returns 0, except those of [failing], which return
    their listed exit code. *)
Definition sample_spawn (failing : list (string * Z)) (argv : list string)
    (cwd : option string) (env : option dict) (w : nat) : (Z + exn) * nat :=
  match assoc (default "" (head argv)) failing with
  | Some rc => (inl rc, S w)
  | None => (inl 0, S w)
  end.

Definition sample_assignment : dict :=
  <["ASSIGNMENT_DUE_DATE" := "2024-05-01 23:59"]>
  (<["ASSIGNMENT_TEMPLATE_REPOSITORY" := "https://example.org/template.git"]>
  (<["ASSIGNMENT_TASKS" := "task1 task2"]> ∅)).

Definition sample_task1 : dict := <["TASK1_METRICS" := "junit checkstyle"]> ∅.
Definition sample_task2 : dict := <["TASK2_METRICS" := "compile"]> ∅.

Definition sample_files : list (string * dict) :=
  [("assignment.yml", sample_assignment);
   ("task1/task.yml", sample_task1);
   ("task2/task.yml", sample_task2)].

Definition sample_present : list string :=
  ["/opt/d2g/scripts/metrics/junit.sh";
   "/opt/d2g/scripts/metrics/junit.py";
   "/opt/d2g/scripts/metrics/checkstyle.py"].

Definition sample_state : state nat :=
  State 0%nat (<["D2G_PATH" := "/opt/d2g"]> (<["HOME" := "/home/student"]> ∅)) [] [].

(** Worlds in which something goes wrong. *)
Definition checkout_fails : list (string * Z) :=
  [("/opt/d2g/scripts/checkout_due_date.sh", 1)].

Definition junit_fails : list (string * Z) :=
  [("/opt/d2g/scripts/metrics/junit.sh", 2)].

Definition revert_fails : list (string * Z) :=
  [("/opt/d2g/scripts/revert_checkout.sh", 3)].

Definition files_without_task2 : list (string * dict) :=
  [("assignment.yml", sample_assignment);
   ("task1/task.yml", sample_task1)].

(** A task configuration with a key of the assignment configuration. *)
Definition colliding_task1 : dict :=
  <["ASSIGNMENT_DUE_DATE" := "2024-06-01 12:00"]> sample_task1.

Definition colliding_files : list (string * dict) :=
  [("assignment.yml", sample_assignment);
   ("task1/task.yml", colliding_task1);
   ("task2/task.yml", sample_task2)].

(** Configurations without a key the script reads, or with an empty
    list. *)
Definition files_with_assignment (ac : dict) : list (string * dict) :=
  [("assignment.yml", ac);
   ("task1/task.yml", sample_task1);
   ("task2/task.yml", sample_task2)].



Definition assignment_with_no_task : dict :=
  <["ASSIGNMENT_TASKS" := ""]> sample_assignment.

(** A state in which the assignment and the configuration of [task1]
    have been loaded. *)
Definition loaded_state (tc : dict) : state nat :=
  State 0%nat (<["D2G_PATH" := "/opt/d2g"]> (<["HOME" := "/home/student"]> ∅))
    [sample_assignment; tc] [].

(** The environment without [D2G_PATH]. *)
Definition state_without_D2G_PATH : state nat :=
  State 0%nat (<["HOME" := "/home/student"]> ∅) [] [].

(** The programs of [missing] cannot be started; the others are those
    of [sample_spawn]. *)
Definition sample_spawn_missing (missing : list string)
    (failing : list (string * Z)) (argv : list string) (cwd : option string)
    (env : option dict) (w : nat) : (Z + exn) * nat :=
  if bool_decide (default "" (head argv) ∈ missing)
  then (inr FileNotFoundError, w)
  else sample_spawn failing argv cwd env w.

Definition artifact_fails : list (string * Z) :=
  [("/opt/d2g/scripts/create_artifact.sh", 4)].



(** ** The script *)

Section Pipeline.

(** The collaborators of the script. [load_yaml] is the loader of the
    repository's [load_yaml] module, which is not part of this file: it
    reads the file system and returns a mapping of strings or raises.
    [path_exists] is [os.path.exists]; [spawn] is the external program
    started by [subprocess.run], which returns an exit code (or cannot be
    started) and may change the world. [str_upper] is [str.upper]. *)
Context {W : Type}.
Variable load_yaml : string → option string → W → dict + exn.
Variable path_exists : string → W → bool.
Variable spawn : list string → option string → option dict → W → (Z + exn) * W.
Variable str_upper : string → string.

Abbreviation Cmd := (M W).

(** [conf_loader.load_yaml(path, prefix)]; the result is a new object. *)
Definition conf_loader_load_yaml (path : string) (prefix : option string)
  : Cmd loc :=
  λ s, match load_yaml path prefix (world s) with
       | inl d => (Done (length (heap s)),
                   alloc d (emit (ELoad path prefix (inl d)) s))
       | inr e => (Raise e, emit (ELoad path prefix (inr e)) s)
       end.

(** [os.path.exists(path)] *)
Definition os_path_exists (path : string) : Cmd bool :=
  λ s, let b := path_exists path (world s) in
       (Done b, emit (EExists path b) s).

(** [subprocess.run(argv, cwd=cwd, env=env).returncode] *)
Definition subprocess_run (argv : list string) (cwd : option string)
    (env : option dict) : Cmd Z :=
  λ s, match spawn argv cwd env (world s) with
       | (inl rc, w) => (Done rc, set_world w (emit (ERun argv cwd env (inl rc)) s))
       | (inr e, w) => (Raise e, set_world w (emit (ERun argv cwd env (inr e)) s))
       end.

Definition ASSIGNMENT_FILE_NAME := "assignment.yml".
Definition TASK_FILENAME := "task.yml".

Definition _print_usage : Cmd unit :=
  print "usage: deploy_to_grading.py" ;;
  print "       Executes the Deploy-to-Grading pipeline. Make sure to" ;;
  print "       execute the script inside an assignment folder and" ;;
  print "       that the D2G_PATH env variable is set.".

Definition _print_error_and_exit {A} (error_msg : string) : Cmd A :=
  print error_msg ;;
  _print_usage ;;
  exit (-1).

Definition _load_assignment_config : Cmd loc :=
  print "Loading assignment configuration" ;;
  try_except (conf_loader_load_yaml ASSIGNMENT_FILE_NAME None)
    (λ _, _print_error_and_exit ("Failed to load " +:+ ASSIGNMENT_FILE_NAME)).

Definition _checkout_due_date (due_date : string) : Cmd unit :=
  print "Checking out due date" ;;
  d2g <- os_environ_get "D2G_PATH" ;;
  let script_path := os_path_join d2g "scripts/checkout_due_date.sh" in
  returncode <- subprocess_run [script_path; due_date] None None ;;
  if decide (returncode ≠ 0)
  then _print_error_and_exit "Failed to evaluate checkout commit"
  else ret tt.

Definition _load_task_config (taskname : string) : Cmd loc :=
  print ("Loading task configuration for task " +:+ taskname) ;;
  let task_config_path := os_path_join taskname TASK_FILENAME in
  try_except (conf_loader_load_yaml task_config_path (Some (str_upper taskname)))
    (λ _, _print_error_and_exit ("Failed to load " +:+ task_config_path)).

Definition _override_repo (taskname : option string) (repository : string)
    (task_configuration : option loc) : Cmd unit :=
  print ("Overriding repository for task " +:+ pystr taskname) ;;
  d2g <- os_environ_get "D2G_PATH" ;;
  let script_path := os_path_join d2g "scripts/override_repo.py" in
  returncode <-
    (if truthy taskname
     then env <- match task_configuration with
                 | Some l => d <- deref l ;; ret (Some d)
                 | None => ret None
                 end ;;
          subprocess_run [script_path; "-t"; pystr taskname; "-r"; repository]
            taskname env
     else subprocess_run [script_path; "-a"; "-r"; repository] None None) ;;
  if decide (returncode ≠ 0)
  then _print_error_and_exit "Failed to execute override_repo.py"
  else ret tt.

Definition _get_metric_script_path (metric : string) : Cmd (list string) :=
  d2g <- os_environ_get "D2G_PATH" ;;
  let base_path := os_path_join d2g ("scripts/metrics/" +:+ metric) in
  sh <- os_path_exists (base_path +:+ ".sh") ;;
  if sh then ret [base_path +:+ ".sh"]
  else
    py <- os_path_exists (base_path +:+ ".py") ;;
    if py then ret [base_path +:+ ".py"]
    else ret ["./gradlew"; metric].

(** The body of the loop of [_execute_metrics]. *)
Definition _execute_metric (taskname metric : string) : Cmd unit :=
  print ("Executing metric " +:+ metric +:+ " for task " +:+ taskname) ;;
  metric_script <- _get_metric_script_path metric ;;
  returncode <- subprocess_run metric_script (Some taskname) None ;;
  if decide (returncode ≠ 0)
  then _print_error_and_exit ("Failed to execute metric " +:+ metric)
  else ret tt.

Definition _execute_metrics (taskname metrics : string) : Cmd unit :=
  for_each (str_split_space metrics) (_execute_metric taskname).

Definition _evaluate_metrics (taskname metrics : string)
    (task_configuration assignment_configuration : loc) : Cmd unit :=
  print ("Evaluating metrics for task " +:+ taskname) ;;
  d2g <- os_environ_get "D2G_PATH" ;;
  let script_path := os_path_join d2g "scripts/evaluate_task.py" in
  env <- dict_environ2 task_configuration assignment_configuration ;;
  returncode <- subprocess_run [script_path; taskname] (Some taskname) (Some env) ;;
  if decide (returncode ≠ 0)
  then _print_error_and_exit "Failed to execute evaluate_task.py"
  else ret tt.

Definition metrics_key (taskname : string) : string :=
  str_upper taskname +:+ "_METRICS".

Definition _evaluate_task (taskname : string) (assignment_configuration : loc)
  : Cmd unit :=
  task_conf <- _load_task_config taskname ;;
  repository <- getitem assignment_configuration "ASSIGNMENT_TEMPLATE_REPOSITORY" ;;
  _override_repo (Some taskname) repository (Some task_conf) ;;
  metrics <- getitem task_conf (metrics_key taskname) ;;
  _execute_metrics taskname metrics ;;
  metrics' <- getitem task_conf (metrics_key taskname) ;;
  _evaluate_metrics taskname metrics' task_conf assignment_configuration.

Definition _create_artifact (assignment_configuration : loc) : Cmd unit :=
  print "Creating artifact" ;;
  d2g <- os_environ_get "D2G_PATH" ;;
  let script_path := os_path_join d2g "scripts/create_artifact.sh" in
  env <- dict_environ1 assignment_configuration ;;
  returncode <- subprocess_run [script_path] None (Some env) ;;
  if decide (returncode ≠ 0)
  then _print_error_and_exit "Failed to execute create_artifact.sh"
  else ret tt.

Definition _present_results (assignment_configuration : loc) : Cmd unit :=
  _create_artifact assignment_configuration ;;
  d2g <- os_environ_get "D2G_PATH" ;;
  let script_path := os_path_join d2g "scripts/print_results_student.py" in
  env <- dict_environ1 assignment_configuration ;;
  returncode <- subprocess_run [script_path] None (Some env) ;;
  if decide (returncode ≠ 0)
  then _print_error_and_exit "Failed to print student results"
  else ret tt.

Definition _revert_checkout : Cmd unit :=
  d2g <- os_environ_get "D2G_PATH" ;;
  let script_path := os_path_join d2g "scripts/revert_checkout.sh" in
  _ <- subprocess_run [script_path] None None ;;
  ret tt.

Definition _main : Cmd unit :=
  assignment_conf <- _load_assignment_config ;;
  due_date <- getitem assignment_conf "ASSIGNMENT_DUE_DATE" ;;
  _checkout_due_date due_date ;;
  repository <- getitem assignment_conf "ASSIGNMENT_TEMPLATE_REPOSITORY" ;;
  _override_repo None repository None ;;
  tasks <- getitem assignment_conf "ASSIGNMENT_TASKS" ;;
  for_each (str_split_space tasks) (λ task, _evaluate_task task assignment_conf) ;;
  _present_results assignment_conf ;;
  _revert_checkout.


(** ** Vocabulary for traces *)

(** The lines of [_print_usage] and what [_print_error_and_exit] leaves
    in the trace. *)
Definition usage_lines : list event :=
  [EPrint "usage: deploy_to_grading.py";
   EPrint "       Executes the Deploy-to-Grading pipeline. Make sure to";
   EPrint "       execute the script inside an assignment folder and";
   EPrint "       that the D2G_PATH env variable is set."].

Definition abort_lines (error_msg : string) : list event :=
  EPrint error_msg :: usage_lines.

Definition emits (d : list event) (s : state W) : state W :=
  State (world s) (environ s) (heap s) (trace s ++ d).

(** A step that went well: a line printed, a file probed, a
    configuration loaded, a process that returned 0. *)
Definition ok_event (e : event) : bool :=
  match e with
  | EPrint _ | EExists _ _ => true
  | ELoad _ _ (inl _) => true
  | ERun _ _ _ (inl rc) => bool_decide (rc = 0)
  | _ => false
  end.

(** A step that failed in a way the script tests for: a process that
    returned non-zero, a load that raised one of the two caught
    exceptions. *)
Definition failed_event (e : event) : bool :=
  match e with
  | ELoad _ _ (inr x) => caught x
  | ERun _ _ _ (inl rc) => bool_decide (rc ≠ 0)
  | _ => false
  end.

(** A collaborator that raised an exception the script does not catch. *)
Definition raising_event (x : exn) (e : event) : Prop :=
  match e with
  | ELoad _ _ (inr y) => y = x ∧ caught y = false
  | ERun _ _ _ (inr y) => y = x
  | _ => False
  end.

(** The call of [_revert_checkout] is the only process the script starts
    with a single argument, in its own directory and with its own
    environment. *)
Definition revert_call (argv : list string) (cwd : option string)
    (env : option dict) : bool :=
  match cwd, env, argv with
  | None, None, [_] => true
  | _, _, _ => false
  end.

Definition revert_shaped (e : event) : bool :=
  match e with
  | ERun argv cwd env _ => revert_call argv cwd env
  | _ => false
  end.

(** A step of the pipeline proper that went well. *)
Definition fine (e : event) : bool := ok_event e && negb (revert_shaped e).

(** The message printed for a failed load names the file. *)
Definition failure_message (e : event) (msg : string) : Prop :=
  match e with
  | ELoad path _ _ => msg = "Failed to load " +:+ path
  | _ => True
  end.

(** The fail-fast discipline, as a shape of the events [d] of a run with
    outcome [o]: steps of the pipeline that went well, and then
    - at the end of a completed run, the events [last] allows;
    - on [exit], one failed step, its message and the usage lines;
    - on an exception, nothing, or the collaborator call that raised. *)
Inductive run_shape {A} (last : list event → Prop)
  : outcome A → list event → Prop :=
| shape_done a good tail :
    Forall fine good → last tail →
    run_shape last (Done a) (good ++ tail)
| shape_abort good bad msg :
    Forall fine good → failed_event bad → revert_shaped bad = false →
    failure_message bad msg →
    run_shape last (Exit (-1)) (good ++ bad :: abort_lines msg)
| shape_raise x good :
    Forall fine good →
    run_shape last (Raise x) good
| shape_raise_at x good e :
    Forall fine good → raising_event x e →
    run_shape last (Raise x) (good ++ [e]).

(** The dictionaries the loader returned, in the order of the loads. *)
Definition loaded (d : list event) : list dict :=
  omap (λ e, match e with
             | ELoad _ _ (inl conf) => Some conf
             | _ => None
             end) d.

(** A computation obeys the discipline when every run of it leaves
    [os.environ] as it is, adds events of that shape to the trace, and
    adds to the heap the dictionaries loaded in these events and changes
    nothing else there. *)
Definition obeys {A} (last : dict → list event → Prop) (m : Cmd A) : Prop :=
  ∀ s, environ (m s).2 = environ s ∧
       ∃ d, trace (m s).2 = trace s ++ d ∧
            heap (m s).2 = heap s ++ loaded d ∧
            run_shape (last (environ s)) (m s).1 d.

Definition nothing : dict → list event → Prop := λ _ tail, tail = [].

(** The call of [_revert_checkout], with any result. *)
Definition revert_event (d2g : string) (res : Z + exn) : event :=
  ERun [os_path_join d2g "scripts/revert_checkout.sh"] None None res.

Definition reverted : dict → list event → Prop :=
  λ env tail, ∃ d2g rc, env !! "D2G_PATH" = Some d2g ∧
                        tail = [revert_event d2g (inl rc)].

(** [ran s s' d]: from [s] to [s'] the events [d] were added to the
    trace, [os.environ] is the same, the dictionaries of the heap are
    still there, unchanged, and those loaded in [d] were added. *)
Definition ran (s s' : state W) (d : list event) : Prop :=
  environ s' = environ s ∧
  heap s' = heap s ++ loaded d ∧
  trace s' = trace s ++ d.

(** *** The events of the steps when they go well *)

Definition load_assignment_steps (ac : dict) : list event :=
  [EPrint "Loading assignment configuration";
   ELoad ASSIGNMENT_FILE_NAME None (inl ac)].

Definition checkout_steps (d2g due_date : string) : list event :=
  [EPrint "Checking out due date";
   ERun [os_path_join d2g "scripts/checkout_due_date.sh"; due_date]
     None None (inl 0)].

Definition load_task_steps (taskname : string) (tc : dict) : list event :=
  [EPrint ("Loading task configuration for task " +:+ taskname);
   ELoad (os_path_join taskname TASK_FILENAME) (Some (str_upper taskname))
     (inl tc)].

(** The override of the whole assignment, and of one task with the
    task's configuration as the environment. A task called [""] gets the
    first one. *)
Definition override_steps (d2g : string) (taskname : option string)
    (repository : string) (tc : option dict) : list event :=
  [EPrint ("Overriding repository for task " +:+ pystr taskname);
   if truthy taskname
   then ERun [os_path_join d2g "scripts/override_repo.py";
              "-t"; pystr taskname; "-r"; repository] taskname tc (inl 0)
   else ERun [os_path_join d2g "scripts/override_repo.py";
              "-a"; "-r"; repository] None None (inl 0)].

Definition metric_base (d2g metric : string) : string :=
  os_path_join d2g ("scripts/metrics/" +:+ metric).

(** One metric: the probes for the shell script and, without one, for
    the Python script, then the process. *)
Inductive metric_steps (d2g taskname metric : string) : list event → Prop :=
| metric_sh :
    metric_steps d2g taskname metric
      [EPrint ("Executing metric " +:+ metric +:+ " for task " +:+ taskname);
       EExists (metric_base d2g metric +:+ ".sh") true;
       ERun [metric_base d2g metric +:+ ".sh"] (Some taskname) None (inl 0)]
| metric_py :
    metric_steps d2g taskname metric
      [EPrint ("Executing metric " +:+ metric +:+ " for task " +:+ taskname);
       EExists (metric_base d2g metric +:+ ".sh") false;
       EExists (metric_base d2g metric +:+ ".py") true;
       ERun [metric_base d2g metric +:+ ".py"] (Some taskname) None (inl 0)]
| metric_gradle :
    metric_steps d2g taskname metric
      [EPrint ("Executing metric " +:+ metric +:+ " for task " +:+ taskname);
       EExists (metric_base d2g metric +:+ ".sh") false;
       EExists (metric_base d2g metric +:+ ".py") false;
       ERun ["./gradlew"; metric] (Some taskname) None (inl 0)].

Definition evaluate_steps (d2g taskname : string) (env : dict) : list event :=
  [EPrint ("Evaluating metrics for task " +:+ taskname);
   ERun [os_path_join d2g "scripts/evaluate_task.py"; taskname]
     (Some taskname) (Some env) (inl 0)].

(** One task: load, override, the metrics of the list in order, then the
    evaluation. *)
Definition task_steps (env : dict) (d2g : string) (ac : dict)
    (taskname : string) (d : list event) : Prop :=
  ∃ repository tc metrics ms,
    ac !! "ASSIGNMENT_TEMPLATE_REPOSITORY" = Some repository ∧
    tc !! metrics_key taskname = Some metrics ∧
    tc ##ₘ ac ∧
    Forall2 (metric_steps d2g taskname) (str_split_space metrics) ms ∧
    d = load_task_steps taskname tc ++
        override_steps d2g (Some taskname) repository (Some tc) ++
        concat ms ++
        evaluate_steps d2g taskname (ac ∪ tc ∪ env).

Definition present_steps (d2g : string) (env : dict) : list event :=
  [EPrint "Creating artifact";
   ERun [os_path_join d2g "scripts/create_artifact.sh"] None (Some env) (inl 0);
   ERun [os_path_join d2g "scripts/print_results_student.py"] None (Some env)
     (inl 0)].

(** The environment given to a process of [e], if one is given: a loaded
    task configuration itself, or [os.environ] under the loaded
    configurations. *)
Definition env_from_configs (env0 ac : dict) (tcs : list dict) (e : event)
  : Prop :=
  match e with
  | ERun _ _ (Some env) _ =>
      env = ac ∪ env0 ∨ ∃ tc, tc ∈ tcs ∧ (env = tc ∨ env = ac ∪ tc ∪ env0)
  | _ => True
  end.

(** *** Further vocabulary *)

(** [" ".join(fields)] *)
Fixpoint str_join_space (fields : list string) : string :=
  match fields with
  | [] => ""
  | [field] => field
  | field :: rest => field +:+ " " +:+ str_join_space rest
  end.

Fixpoint count_spaces (s : string) : nat :=
  match s with
  | EmptyString => 0%nat
  | String c rest =>
      if Ascii.eqb c " "%char then S (count_spaces rest) else count_spaces rest
  end.

(** The steps that can fail, each with the message the script prints for
    it. *)
Inductive step_failure (d2g : string) : event → string → Prop :=
| failure_load path prefix x :
    caught x = true →
    step_failure d2g (ELoad path prefix (inr x)) ("Failed to load " +:+ path)
| failure_checkout due_date rc :
    rc ≠ 0 →
    step_failure d2g
      (ERun [os_path_join d2g "scripts/checkout_due_date.sh"; due_date]
         None None (inl rc))
      "Failed to evaluate checkout commit"
| failure_override_assignment repository rc :
    rc ≠ 0 →
    step_failure d2g
      (ERun [os_path_join d2g "scripts/override_repo.py"; "-a"; "-r"; repository]
         None None (inl rc))
      "Failed to execute override_repo.py"
| failure_override_task taskname repository env rc :
    rc ≠ 0 →
    step_failure d2g
      (ERun [os_path_join d2g "scripts/override_repo.py";
             "-t"; taskname; "-r"; repository] (Some taskname) env (inl rc))
      "Failed to execute override_repo.py"
| failure_metric taskname metric argv rc :
    rc ≠ 0 →
    argv = [metric_base d2g metric +:+ ".sh"] ∨
    argv = [metric_base d2g metric +:+ ".py"] ∨
    argv = ["./gradlew"; metric] →
    step_failure d2g (ERun argv (Some taskname) None (inl rc))
      ("Failed to execute metric " +:+ metric)
| failure_evaluate taskname env rc :
    rc ≠ 0 →
    step_failure d2g
      (ERun [os_path_join d2g "scripts/evaluate_task.py"; taskname]
         (Some taskname) (Some env) (inl rc))
      "Failed to execute evaluate_task.py"
| failure_artifact env rc :
    rc ≠ 0 →
    step_failure d2g
      (ERun [os_path_join d2g "scripts/create_artifact.sh"] None (Some env)
         (inl rc))
      "Failed to execute create_artifact.sh"
| failure_print env rc :
    rc ≠ 0 →
    step_failure d2g
      (ERun [os_path_join d2g "scripts/print_results_student.py"] None
         (Some env) (inl rc))
      "Failed to print student results".

(** The exceptions the script raises by itself: a key that is not there,
    and a keyword given twice to [dict]. *)
Definition script_exception (x : exn) : Prop :=
  (∃ key, x = KeyError key) ∨
  x = TypeError "dict() got multiple values for keyword argument".

(** Why a run did not complete, read off its outcome [o] and events
    [d]: a step failed, and its message and the usage lines are the last
    lines; or a collaborator raised, in the last event; or the script
    raised by itself. *)
Inductive stopped (d2g : string) {A} : outcome A → list event → Prop :=
| stopped_exit good bad msg :
    step_failure d2g bad msg →
    stopped d2g (Exit (-1)) (good ++ bad :: abort_lines msg)
| stopped_raise_at x good e :
    raising_event x e →
    stopped d2g (Raise x) (good ++ [e])
| stopped_raise x d :
    script_exception x →
    stopped d2g (Raise x) d.

Definition halts (d2g : string) {A} (s : state W) (o : outcome A)
    (s' : state W) : Prop :=
  ∃ d, trace s' = trace s ++ d ∧ stopped d2g o d.

(** The command line of a metric. *)
Definition metric_command (d2g metric : string) (argv : list string) : Prop :=
  argv = [metric_base d2g metric +:+ ".sh"] ∨
  argv = [metric_base d2g metric +:+ ".py"] ∨
  argv = ["./gradlew"; metric].

(** The forms of the events of the script, with [D2G_PATH] being [d2g]:
    the two kinds of configuration files, the two probes of a metric,
    and nine command lines with their directory and whether they get an
    environment. Paths are joined strings: the names of tasks and
    metrics, which come from the configurations, enter them as they
    are. *)
Definition permitted (d2g : string) (e : event) : Prop :=
  match e with
  | EPrint _ => True
  | ELoad path prefix _ =>
      (path = "assignment.yml" ∧ prefix = None) ∨
      ∃ taskname, path = os_path_join taskname "task.yml" ∧
                  prefix = Some (str_upper taskname)
  | EExists path _ =>
      ∃ metric, path = metric_base d2g metric +:+ ".sh" ∨
                path = metric_base d2g metric +:+ ".py"
  | ERun argv cwd env _ =>
      (∃ due_date,
         argv = [os_path_join d2g "scripts/checkout_due_date.sh"; due_date] ∧
         cwd = None ∧ env = None) ∨
      (∃ repository,
         argv = [os_path_join d2g "scripts/override_repo.py";
                 "-a"; "-r"; repository] ∧
         cwd = None ∧ env = None) ∨
      (∃ taskname repository,
         argv = [os_path_join d2g "scripts/override_repo.py";
                 "-t"; taskname; "-r"; repository] ∧
         cwd = Some taskname) ∨
      (∃ taskname metric,
         metric_command d2g metric argv ∧ cwd = Some taskname ∧ env = None) ∨
      (∃ taskname,
         argv = [os_path_join d2g "scripts/evaluate_task.py"; taskname] ∧
         cwd = Some taskname ∧ is_Some env) ∨
      (argv = [os_path_join d2g "scripts/create_artifact.sh"] ∧
       cwd = None ∧ is_Some env) ∨
      (argv = [os_path_join d2g "scripts/print_results_student.py"] ∧
       cwd = None ∧ is_Some env) ∨
      (argv = [os_path_join d2g "scripts/revert_checkout.sh"] ∧
       cwd = None ∧ env = None)
  end.

Abbreviation anything := (λ _, True).

(** A computation keeps to that, in every run and whatever the outcome,
    and a result it returns satisfies [Q]. *)
Definition keeps_to (d2g : string) {A} (Q : A → Prop) (m : Cmd A) : Prop :=
  ∀ s, environ s !! "D2G_PATH" = Some d2g →
       environ (m s).2 = environ s ∧
       (∀ a, (m s).1 = Done a → Q a) ∧
       ∃ d, trace (m s).2 = trace s ++ d ∧ Forall (permitted d2g) d.


(** ** Strings and paths *)

Lemma string_app_assoc (a b c : string) : (a +:+ b) +:+ c = a +:+ b +:+ c.
Proof.
  induction a as [|x a IH]; [reflexivity|].
  change (String x ((a +:+ b) +:+ c) = String x (a +:+ b +:+ c)).
  by rewrite IH.
Qed.

(** Joining a directory and a relative path. *)
Lemma os_path_join_relative (a b : string) :
  starts_with_slash b = false →
  os_path_join a b
  = (if (String.eqb a "" || ends_with_slash a)%bool then a else a +:+ "/")
    +:+ b.
Proof.
  intros Hb. unfold os_path_join. rewrite Hb.
  destruct (String.eqb a "" || ends_with_slash a)%bool; [done|].
  by rewrite string_app_assoc.
Qed.

Lemma str_split_space_nonempty s : str_split_space s ≠ [].
Proof.
  destruct s as [|c s]; simpl; [done|].
  destruct (Ascii.eqb c " "); [done|]. by destruct (str_split_space s).
Qed.

(** *** Lists written with spaces *)

Lemma str_split_space_cons c s :
  str_split_space (String c s)
  = if Ascii.eqb c " "%char then "" :: str_split_space s
    else match str_split_space s with
         | field :: fields => String c field :: fields
         | [] => [String c ""]
         end.
Proof. reflexivity. Qed.

Lemma str_join_space_cons field fields :
  fields ≠ [] →
  str_join_space (field :: fields) = field +:+ " " +:+ str_join_space fields.
Proof. by destruct fields. Qed.

Lemma str_join_space_first c field fields :
  str_join_space (String c field :: fields)
  = String c (str_join_space (field :: fields)).
Proof. by destruct fields. Qed.

Lemma str_join_split s : str_join_space (str_split_space s) = s.
Proof.
  induction s as [|c s IH]; [done|]. rewrite str_split_space_cons.
  destruct (Ascii.eqb_spec c " "%char) as [->|Hc].
  - rewrite str_join_space_cons by apply str_split_space_nonempty.
    by rewrite IH.
  - destruct (str_split_space s) as [|field fields] eqn:Hs.
    + by destruct (str_split_space_nonempty s).
    + by rewrite str_join_space_first, IH.
Qed.

Lemma str_split_space_length s :
  length (str_split_space s) = S (count_spaces s).
Proof.
  induction s as [|c s IH]; [done|]. rewrite str_split_space_cons. simpl.
  destruct (Ascii.eqb c " "%char); simpl; [by rewrite IH|].
  destruct (str_split_space s); simpl in *; [done|by rewrite <- IH].
Qed.

Lemma str_split_space_fields s :
  Forall (λ field, count_spaces field = 0%nat) (str_split_space s).
Proof.
  induction s as [|c s IH]; [by repeat constructor|].
  rewrite str_split_space_cons.
  destruct (Ascii.eqb c " "%char) eqn:Hc; [by constructor|].
  destruct (str_split_space s) as [|field fields]; [|].
  - repeat constructor. simpl. by rewrite Hc.
  - inversion IH as [|? ? Hfield Hfields]; subst. constructor; [|done].
    simpl. by rewrite Hc.
Qed.

(** The first field of a list that starts with a word and a space. *)
Lemma str_split_space_word word rest :
  count_spaces word = 0%nat →
  str_split_space (word +:+ " " +:+ rest) = word :: str_split_space rest.
Proof.
  induction word as [|c word IH]; intros Hword.
  - reflexivity.
  - change (String c word +:+ " " +:+ rest)
      with (String c (word +:+ " " +:+ rest)).
    rewrite str_split_space_cons. simpl in Hword.
    destruct (Ascii.eqb c " "%char); [done|]. by rewrite IH.
Qed.

Lemma str_split_join fields :
  fields ≠ [] →
  Forall (λ field, count_spaces field = 0%nat) fields →
  str_split_space (str_join_space fields) = fields.
Proof.
  induction fields as [|field fields IH]; [done|]. intros _ Hfields.
  inversion Hfields as [|? ? Hfield Hrest]; subst.
  destruct fields as [|field' fields].
  - simpl. clear IH Hfields Hrest.
    induction field as [|c field IH]; [done|].
    rewrite str_split_space_cons. simpl in Hfield.
    destruct (Ascii.eqb c " "%char); [done|]. by rewrite IH.
  - rewrite str_join_space_cons by done.
    rewrite str_split_space_word by done. by rewrite IH.
Qed.

(** ** Running the monad *)

Lemma bind_Done {A B} (m : Cmd A) (k : A → Cmd B) s a s1 :
  m s = (Done a, s1) → bind m k s = k a s1.
Proof. unfold bind. by intros ->. Qed.

Lemma bind_Exit {A B} (m : Cmd A) (k : A → Cmd B) s c s1 :
  m s = (Exit c, s1) → bind m k s = (Exit c, s1).
Proof. unfold bind. by intros ->. Qed.

Lemma bind_Raise {A B} (m : Cmd A) (k : A → Cmd B) s e s1 :
  m s = (Raise e, s1) → bind m k s = (Raise e, s1).
Proof. unfold bind. by intros ->. Qed.

Lemma bind_inv_Done {A B} (m : Cmd A) (k : A → Cmd B) s b s2 :
  bind m k s = (Done b, s2) →
  ∃ a s1, m s = (Done a, s1) ∧ k a s1 = (Done b, s2).
Proof.
  unfold bind. destruct (m s) as [[a|c|e] s1]; intros H; try discriminate.
  by exists a, s1.
Qed.

Lemma bind_assoc {A B C} (m : Cmd A) (f : A → Cmd B) (g : B → Cmd C) s :
  bind (bind m f) g s = bind m (λ a, bind (f a) g) s.
Proof. unfold bind. by destruct (m s) as [[a|c|e] s1]. Qed.

Lemma _print_error_and_exit_run {A} msg s :
  @_print_error_and_exit A msg s = (Exit (-1), emits (abort_lines msg) s).
Proof.
  unfold _print_error_and_exit, _print_usage, bind, print, exit, emits, emit.
  simpl. by rewrite <- !app_assoc.
Qed.

(** A run, from its outcome. *)
Lemma run_result {A} (m : Cmd A) s o : (m s).1 = o → m s = (o, (m s).2).
Proof. intros <-. apply surjective_pairing. Qed.

(** ** The fail-fast discipline *)

Lemma shape_done_plain {A} env (a : A) d :
  Forall fine d → run_shape (nothing env) (Done a) d.
Proof.
  intros H. rewrite <- (app_nil_r d). by apply shape_done.
Qed.

Lemma run_shape_prepend {A} last (o : outcome A) g d :
  Forall fine g → run_shape last o d → run_shape last o (g ++ d).
Proof.
  intros Hg Hd. destruct Hd; rewrite ?app_assoc.
  - apply shape_done; [by apply Forall_app|done].
  - apply shape_abort; [by apply Forall_app|done..].
  - apply shape_raise. by apply Forall_app.
  - apply shape_raise_at; [by apply Forall_app|done].
Qed.

Lemma loaded_app d1 d2 : loaded (d1 ++ d2) = loaded d1 ++ loaded d2.
Proof. apply omap_app. Qed.

(** Closes the three facts about the state of a run whose events are
    known. *)
Ltac state_facts :=
  unfold emits, emit, set_world, alloc; simpl;
  rewrite ?app_nil_r, <- ?app_assoc; done.

Lemma obeys_ret {A} (a : A) : obeys nothing (ret a).
Proof.
  intros s. split; [done|]. exists []. split_and!; [state_facts..|].
  by apply shape_done_plain.
Qed.

Lemma obeys_bind {A B} last (m : Cmd A) (k : A → Cmd B) :
  obeys nothing m → (∀ a, obeys last (k a)) → obeys last (bind m k).
Proof.
  intros Hm Hk s. destruct (Hm s) as (He & d & Ht & Hh & Hs).
  unfold bind. destruct (m s) as [[a|c|e] s1]; simpl in *.
  - destruct (Hk a s1) as (He' & d' & Ht' & Hh' & Hs').
    split; [congruence|]. exists (d ++ d'). split_and!.
    + by rewrite Ht', Ht, app_assoc.
    + by rewrite Hh', Hh, loaded_app, app_assoc.
    + inversion Hs as [? good tail Hgood Htail| | |]; subst.
      unfold nothing in Htail. subst tail. rewrite app_nil_r.
      apply run_shape_prepend; [done|]. by rewrite <- He.
  - split; [done|]. exists d. split_and!; [done..|].
    inversion Hs; subst. by apply shape_abort.
  - split; [done|]. exists d. split_and!; [done..|].
    inversion Hs; subst; [by apply shape_raise|by apply shape_raise_at].
Qed.

Lemma obeys_print line : obeys nothing (print line).
Proof.
  intros s. split; [done|]. exists [EPrint line].
  split_and!; [state_facts..|]. apply shape_done_plain. by repeat constructor.
Qed.

Lemma obeys_os_environ_get key : obeys nothing (os_environ_get key).
Proof.
  intros s. unfold os_environ_get.
  destruct (environ s !! key); (split; [done|]); exists [];
    (split_and!; [state_facts..|]).
  - by apply shape_done_plain.
  - by apply shape_raise.
Qed.

Lemma obeys_deref l : obeys nothing (deref l).
Proof.
  intros s. unfold deref.
  destruct (heap s !! l); (split; [done|]); exists [];
    (split_and!; [state_facts..|]).
  - by apply shape_done_plain.
  - by apply shape_raise.
Qed.

Lemma obeys_raise {A} x : obeys nothing (@raise W A x).
Proof.
  intros s. split; [done|]. exists []. split_and!; [state_facts..|].
  by apply shape_raise.
Qed.

Lemma obeys_getitem l key : obeys nothing (getitem l key).
Proof.
  unfold getitem. apply obeys_bind; [apply obeys_deref|].
  intros d. destruct (d !! key); [apply obeys_ret|apply obeys_raise].
Qed.

Lemma obeys_pure {A} (f : state W → A) : obeys nothing (λ s, (Done (f s), s)).
Proof.
  intros s. split; [done|]. exists []. split_and!; [state_facts..|].
  by apply shape_done_plain.
Qed.

Lemma obeys_dict_environ1 l : obeys nothing (dict_environ1 l).
Proof.
  unfold dict_environ1. apply obeys_bind; [apply obeys_deref|].
  intros d. apply (obeys_pure (λ s, d ∪ environ s)).
Qed.

Lemma obeys_dict_environ2 a b : obeys nothing (dict_environ2 a b).
Proof.
  unfold dict_environ2. apply obeys_bind; [apply obeys_deref|].
  intros da. apply obeys_bind; [apply obeys_deref|].
  intros db. case_decide; [|apply obeys_raise].
  apply (obeys_pure (λ s, db ∪ da ∪ environ s)).
Qed.

Lemma obeys_os_path_exists path : obeys nothing (os_path_exists path).
Proof.
  intros s. split; [done|]. eexists [_]. split_and!; [state_facts..|].
  apply shape_done_plain. by repeat constructor.
Qed.

(** A load under [try]/[except] whose handler is [_print_error_and_exit]. *)
Lemma obeys_load path prefix :
  obeys nothing
    (try_except (conf_loader_load_yaml path prefix)
       (λ _, _print_error_and_exit ("Failed to load " +:+ path))).
Proof.
  intros s. unfold try_except, conf_loader_load_yaml.
  destruct (load_yaml path prefix (world s)) as [d|x] eqn:Hload.
  - split; [done|]. eexists [_]. split_and!; [state_facts..|].
    apply shape_done_plain. by repeat constructor.
  - destruct (caught x) eqn:Hx.
    + rewrite _print_error_and_exit_run. split; [done|].
      exists (ELoad path prefix (inr x) :: abort_lines ("Failed to load " +:+ path)).
      split_and!; [state_facts..|].
      by apply (shape_abort _ []); [constructor|simpl; rewrite Hx| |].
    + split; [done|]. eexists [_]. split_and!; [state_facts..|].
      by apply (shape_raise_at _ _ []).
Qed.

(** A process whose exit code is tested. *)
Lemma obeys_checked_run argv cwd env msg :
  revert_call argv cwd env = false →
  obeys nothing
    (returncode <- subprocess_run argv cwd env ;;
     if decide (returncode ≠ 0) then _print_error_and_exit msg else ret tt).
Proof.
  intros Hcall s. unfold bind, subprocess_run.
  destruct (spawn argv cwd env (world s)) as [[rc|x] w] eqn:Hspawn.
  - case_decide as Hrc.
    + rewrite _print_error_and_exit_run. split; [done|].
      exists (ERun argv cwd env (inl rc) :: abort_lines msg).
      split_and!; [state_facts..|].
      apply (shape_abort _ []); [constructor| |done|done].
      simpl. by apply bool_decide_pack.
    + split; [done|]. eexists [_]. split_and!; [state_facts..|].
      apply shape_done_plain. repeat constructor. unfold fine. simpl.
      rewrite Hcall. apply andb_prop_intro. split; [|done].
      apply bool_decide_pack. by destruct (decide (rc = 0)).
  - split; [done|]. eexists [_]. split_and!; [state_facts..|].
    by apply (shape_raise_at _ _ []).
Qed.

Lemma obeys_for_each {A} (xs : list A) (body : A → Cmd unit) :
  (∀ x, obeys nothing (body x)) → obeys nothing (for_each xs body).
Proof.
  intros Hbody. induction xs as [|x xs IH]; simpl.
  - apply obeys_ret.
  - apply obeys_bind; [apply Hbody|]. by intros _.
Qed.

(** Every function of the script obeys the discipline. *)

Ltac obeys_step :=
  first
    [ apply obeys_checked_run; done
    | apply obeys_load
    | apply obeys_print
    | apply obeys_os_environ_get
    | apply obeys_getitem
    | apply obeys_deref
    | apply obeys_dict_environ1
    | apply obeys_dict_environ2
    | apply obeys_os_path_exists
    | apply obeys_ret
    | apply obeys_bind; [|intros ?] ].

Ltac obeys_auto := repeat obeys_step.

Lemma obeys__load_assignment_config : obeys nothing _load_assignment_config.
Proof. unfold _load_assignment_config. obeys_auto. Qed.

Lemma obeys__checkout_due_date due_date :
  obeys nothing (_checkout_due_date due_date).
Proof. unfold _checkout_due_date. obeys_auto. Qed.

Lemma obeys__load_task_config taskname :
  obeys nothing (_load_task_config taskname).
Proof. unfold _load_task_config. obeys_auto. Qed.

Lemma obeys_ext {A} last (m m' : Cmd A) :
  (∀ s, m s = m' s) → obeys last m' → obeys last m.
Proof. intros Heq Hm s. rewrite Heq. apply Hm. Qed.

Lemma obeys__override_repo taskname repository task_configuration :
  obeys nothing (_override_repo taskname repository task_configuration).
Proof.
  unfold _override_repo. do 2 (apply obeys_bind; [obeys_auto|intros ?]).
  destruct (truthy taskname) eqn:Htruthy; [|obeys_auto].
  destruct taskname as [t|]; [|done].
  eapply obeys_ext; [intros s; apply bind_assoc|].
  apply obeys_bind; [|intros ?; obeys_auto].
  destruct task_configuration; obeys_auto.
Qed.

Lemma obeys__get_metric_script_path metric :
  obeys nothing (_get_metric_script_path metric).
Proof.
  unfold _get_metric_script_path.
  apply obeys_bind; [obeys_auto|intros d2g].
  apply obeys_bind; [obeys_auto|intros sh].
  destruct sh; [obeys_auto|].
  apply obeys_bind; [obeys_auto|intros []; obeys_auto].
Qed.

Lemma obeys__execute_metric taskname metric :
  obeys nothing (_execute_metric taskname metric).
Proof.
  unfold _execute_metric. apply obeys_bind; [obeys_auto|intros _].
  apply obeys_bind; [apply obeys__get_metric_script_path|intros ?].
  obeys_auto.
Qed.

Lemma obeys__execute_metrics taskname metrics :
  obeys nothing (_execute_metrics taskname metrics).
Proof. apply obeys_for_each, obeys__execute_metric. Qed.

Lemma obeys__evaluate_metrics taskname metrics tc ac :
  obeys nothing (_evaluate_metrics taskname metrics tc ac).
Proof. unfold _evaluate_metrics. obeys_auto. Qed.

Lemma obeys__evaluate_task taskname ac :
  obeys nothing (_evaluate_task taskname ac).
Proof.
  unfold _evaluate_task.
  apply obeys_bind; [apply obeys__load_task_config|intros tc].
  apply obeys_bind; [obeys_auto|intros repository].
  apply obeys_bind; [apply obeys__override_repo|intros _].
  apply obeys_bind; [obeys_auto|intros metrics].
  apply obeys_bind; [apply obeys__execute_metrics|intros _].
  apply obeys_bind; [obeys_auto|intros metrics'].
  apply obeys__evaluate_metrics.
Qed.

Lemma obeys__create_artifact ac : obeys nothing (_create_artifact ac).
Proof. unfold _create_artifact. obeys_auto. Qed.

Lemma obeys__present_results ac : obeys nothing (_present_results ac).
Proof.
  unfold _present_results.
  apply obeys_bind; [apply obeys__create_artifact|intros _]. obeys_auto.
Qed.

(** [_revert_checkout] does not test the exit code: its completed runs
    end with the call, whatever it returned. *)
Lemma obeys__revert_checkout : obeys reverted _revert_checkout.
Proof.
  intros s. unfold _revert_checkout, bind, os_environ_get, subprocess_run.
  destruct (environ s !! "D2G_PATH") as [d2g|] eqn:Hd2g; simpl.
  - destruct (spawn _ None None (world s)) as [[rc|x] w]; simpl.
    + split; [done|]. eexists [_]. split_and!; [state_facts..|].
      apply (shape_done _ _ []); [constructor|]. by exists d2g, rc.
    + split; [done|]. eexists [_]. split_and!; [state_facts..|].
      by apply (shape_raise_at _ _ []).
  - split; [done|]. exists []. split_and!; [state_facts..|].
    by apply shape_raise.
Qed.

Lemma obeys__main : obeys reverted _main.
Proof.
  unfold _main.
  apply obeys_bind; [apply obeys__load_assignment_config|intros ac].
  apply obeys_bind; [obeys_auto|intros due_date].
  apply obeys_bind; [apply obeys__checkout_due_date|intros _].
  apply obeys_bind; [obeys_auto|intros repository].
  apply obeys_bind; [apply obeys__override_repo|intros _].
  apply obeys_bind; [obeys_auto|intros tasks].
  apply obeys_bind;
    [apply obeys_for_each; intros task; apply obeys__evaluate_task|intros _].
  apply obeys_bind; [apply obeys__present_results|intros _].
  apply obeys__revert_checkout.
Qed.

(** ** Consequences of the discipline for whole runs *)


Lemma abort_lines_ok msg : Forall ok_event (abort_lines msg).
Proof. by repeat constructor. Qed.

Lemma fine_ok e : fine e → ok_event e.
Proof. unfold fine. by intros [? _]%andb_prop_elim. Qed.

Lemma Forall_fine_ok d : Forall fine d → Forall ok_event d.
Proof. intros H. eapply Forall_impl; [exact H|apply fine_ok]. Qed.

Lemma fine_not_revert e : fine e → revert_shaped e = false.
Proof.
  unfold fine. intros [_ H]%andb_prop_elim. by destruct (revert_shaped e).
Qed.

(** Where an event that did not go well can sit behind a prefix of events
    that did. *)
Lemma locate_after_ok (pre post good rest : list event) e :
  pre ++ e :: post = good ++ rest →
  Forall ok_event good → ok_event e = false →
  ∃ mid, pre = good ++ mid ∧ rest = mid ++ e :: post.
Proof.
  revert pre. induction good as [|g good IH]; intros pre Heq Hgood He.
  - by exists pre.
  - inversion Hgood as [|? ? Hg Hgood']; subst.
    destruct pre as [|p pre]; simpl in Heq; inversion Heq; subst.
    + rewrite He in Hg. done.
    + destruct (IH pre) as (mid & -> & ->); [done..|]. by exists mid.
Qed.

Lemma locate_in_ok (pre post l : list event) e :
  pre ++ e :: post = l → Forall ok_event l → ok_event e = false → False.
Proof.
  intros <- Hl He. apply Forall_app in Hl as [_ Hl].
  inversion Hl as [|? ? Hok _]; subst. rewrite He in Hok. done.
Qed.

(** The shape of the runs of [_main]. *)
Lemma _main_shape s o s' :
  _main s = (o, s') →
  ∃ d, trace s' = trace s ++ d ∧ run_shape (reverted (environ s)) o d.
Proof.
  intros Hrun. destruct (obeys__main s) as (_ & d & Hd & _ & Hshape).
  rewrite Hrun in Hd, Hshape. by exists d.
Qed.

(** An event of a run of [_main] that did not go well is the last step
    of the run: the step that made the script give up, the call that
    raised, or the final revert. *)
Lemma main_not_ok_event s o s' pre e post :
  _main s = (o, s') →
  trace s' = trace s ++ pre ++ e :: post →
  ok_event e = false →
  Forall fine pre ∧
  match o with
  | Done _ => post = [] ∧ ∃ d2g rc, environ s !! "D2G_PATH" = Some d2g ∧
                                    e = revert_event d2g (inl rc)
  | Exit code => code = -1 ∧ failed_event e ∧ revert_shaped e = false ∧
                 ∃ msg, failure_message e msg ∧ post = abort_lines msg
  | Raise x => post = [] ∧ raising_event x e
  end.
Proof.
  intros Hrun Htrace He.
  destruct (_main_shape _ _ _ Hrun) as (d & Hd & Hshape).
  rewrite Hd in Htrace. apply app_inv_head in Htrace. subst d.
  inversion Hshape as [a good tail Hgood (d2g & rc & Hd2g & ->) Ho Heq
                      |good bad msg Hgood Hbad Hcall Hmsg Ho Heq
                      |x good Hgood Ho Heq
                      |x good ev Hgood Hev Ho Heq]; subst o.
  - symmetry in Heq.
    destruct (locate_after_ok _ _ _ _ _ Heq (Forall_fine_ok _ Hgood) He)
      as (mid & -> & Hmid).
    destruct mid as [|m [|? ?]]; simpl in Hmid; inversion Hmid; subst.
    rewrite app_nil_r. split; [done|]. split; [done|]. by exists d2g, rc.
  - symmetry in Heq.
    destruct (locate_after_ok _ _ _ _ _ Heq (Forall_fine_ok _ Hgood) He)
      as (mid & -> & Hmid).
    destruct mid as [|m mid]; simpl in Hmid; inversion Hmid as [[Hm Hrest]].
    + rewrite app_nil_r. split; [done|]. subst. split_and!; [done..|].
      by exists msg.
    + exfalso. symmetry in Hrest.
      eapply locate_in_ok; [exact Hrest|apply abort_lines_ok|done].
  - exfalso.
    exact (locate_in_ok pre post _ e eq_refl (Forall_fine_ok _ Hgood) He).
  - symmetry in Heq.
    destruct (locate_after_ok _ _ _ _ _ Heq (Forall_fine_ok _ Hgood) He)
      as (mid & -> & Hmid).
    destruct mid as [|m [|? ?]]; simpl in Hmid; inversion Hmid; subst.
    rewrite app_nil_r. done.
Qed.

(** A run that gives up never started the revert. *)
Lemma main_aborted_no_revert s code s' d :
  _main s = (Exit code, s') →
  trace s' = trace s ++ d →
  Forall (λ e, revert_shaped e = false) d.
Proof.
  intros Hrun Htrace.
  destruct (_main_shape _ _ _ Hrun) as (d' & Hd & Hshape).
  rewrite Hd in Htrace. apply app_inv_head in Htrace. subst d'.
  inversion Hshape as [|good bad msg Hgood Hbad Hcall Hmsg Ho Heq| |]; subst.
  apply Forall_app. split.
  - eapply Forall_impl; [exact Hgood|]. apply fine_not_revert.
  - constructor; [done|]. by repeat constructor.
Qed.

(** ** Completed runs, step by step *)

Lemma ran_refl s : ran s s [].
Proof. unfold ran. simpl. by rewrite !app_nil_r. Qed.

Lemma ran_trans s1 s2 s3 d1 d2 :
  ran s1 s2 d1 → ran s2 s3 d2 → ran s1 s3 (d1 ++ d2).
Proof.
  intros (He1 & Hh1 & Ht1) (He2 & Hh2 & Ht2). split_and!.
  - congruence.
  - by rewrite Hh2, Hh1, loaded_app, app_assoc.
  - by rewrite Ht2, Ht1, app_assoc.
Qed.

Lemma ran_heap s s' d l (x : dict) :
  ran s s' d → heap s !! l = Some x → heap s' !! l = Some x.
Proof. intros (_ & -> & _) Hl. by apply lookup_app_l_Some. Qed.

Lemma print_Done line (s : state W) u s' :
  print line s = (Done u, s') → s' = emit (EPrint line) s.
Proof. unfold print. by intros [= _ <-]. Qed.

Lemma os_environ_get_Done key (s : state W) v s' :
  os_environ_get key s = (Done v, s') → environ s !! key = Some v ∧ s' = s.
Proof.
  unfold os_environ_get. destruct (environ s !! key); by intros [= <- <-].
Qed.

Lemma deref_Done l (s : state W) d s' :
  deref l s = (Done d, s') → heap s !! l = Some d ∧ s' = s.
Proof. unfold deref. destruct (heap s !! l); by intros [= <- <-]. Qed.

Lemma getitem_Done l key (s : state W) v s' :
  getitem l key s = (Done v, s') →
  ∃ d, heap s !! l = Some d ∧ d !! key = Some v ∧ s' = s.
Proof.
  unfold getitem. intros (d & s1 & [Hl ->]%deref_Done & H)%bind_inv_Done.
  exists d. destruct (d !! key); inversion H; by subst.
Qed.

Lemma dict_environ1_Done l (s : state W) env s' :
  dict_environ1 l s = (Done env, s') →
  ∃ d, heap s !! l = Some d ∧ env = d ∪ environ s ∧ s' = s.
Proof.
  unfold dict_environ1.
  intros (d & s1 & [Hl ->]%deref_Done & [= <- <-])%bind_inv_Done. by exists d.
Qed.

Lemma dict_environ2_Done a b (s : state W) env s' :
  dict_environ2 a b s = (Done env, s') →
  ∃ da db, heap s !! a = Some da ∧ heap s !! b = Some db ∧ da ##ₘ db ∧
           env = db ∪ da ∪ environ s ∧ s' = s.
Proof.
  unfold dict_environ2.
  intros (da & s1 & [Ha ->]%deref_Done & H)%bind_inv_Done.
  apply bind_inv_Done in H as (db & s1 & [Hb ->]%deref_Done & H).
  case_decide; inversion H; subst. by exists da, db.
Qed.

Lemma os_path_exists_Done path s b s' :
  os_path_exists path s = (Done b, s') →
  b = path_exists path (world s) ∧ s' = emit (EExists path b) s.
Proof. unfold os_path_exists. by intros [= <- <-]. Qed.

Lemma checked_run_Done argv cwd env msg s u s' :
  (returncode <- subprocess_run argv cwd env ;;
   if decide (returncode ≠ 0) then _print_error_and_exit msg else ret tt) s
  = (Done u, s') →
  ∃ w, spawn argv cwd env (world s) = (inl 0, w) ∧
       s' = set_world w (emit (ERun argv cwd env (inl 0)) s).
Proof.
  unfold bind, subprocess_run.
  destruct (spawn argv cwd env (world s)) as [[rc|x] w]; [|done].
  case_decide as Hrc.
  - by rewrite _print_error_and_exit_run.
  - intros [= <-]. exists w. by destruct (decide (rc = 0)) as [->|].
Qed.

Lemma load_Done path prefix msg s l s' :
  try_except (conf_loader_load_yaml path prefix)
    (λ _, _print_error_and_exit msg) s = (Done l, s') →
  ∃ d, load_yaml path prefix (world s) = inl d ∧
       l = length (heap s) ∧
       s' = alloc d (emit (ELoad path prefix (inl d)) s).
Proof.
  unfold try_except, conf_loader_load_yaml.
  destruct (load_yaml path prefix (world s)) as [d|x].
  - intros [= <- <-]. by exists d.
  - destruct (caught x); [by rewrite _print_error_and_exit_run|done].
Qed.

(** Closes [ran] goals between a state and updates of it. *)
Ltac ran_solve := unfold ran; split_and!; state_facts.

Lemma _load_assignment_config_Done s l s' :
  _load_assignment_config s = (Done l, s') →
  ∃ ac, load_yaml ASSIGNMENT_FILE_NAME None (world s) = inl ac ∧
        heap s' !! l = Some ac ∧
        ran s s' (load_assignment_steps ac).
Proof.
  unfold _load_assignment_config.
  intros (u & s1 & ->%print_Done & H)%bind_inv_Done.
  apply load_Done in H as (ac & Hload & -> & ->).
  exists ac. split_and!; [done| |ran_solve].
  simpl. by rewrite lookup_app_r, Nat.sub_diag.
Qed.

Lemma _checkout_due_date_Done due_date s u s' :
  _checkout_due_date due_date s = (Done u, s') →
  ∃ d2g, environ s !! "D2G_PATH" = Some d2g ∧
         ran s s' (checkout_steps d2g due_date).
Proof.
  unfold _checkout_due_date.
  intros (? & s1 & ->%print_Done & H)%bind_inv_Done.
  apply bind_inv_Done in H as (d2g & s1 & [Hd2g ->]%os_environ_get_Done & H).
  apply checked_run_Done in H as (w & Hspawn & ->).
  exists d2g. split; [done|ran_solve].
Qed.

Lemma _load_task_config_Done taskname s l s' :
  _load_task_config taskname s = (Done l, s') →
  ∃ tc, load_yaml (os_path_join taskname TASK_FILENAME)
          (Some (str_upper taskname)) (world s) = inl tc ∧
        heap s' !! l = Some tc ∧
        ran s s' (load_task_steps taskname tc).
Proof.
  unfold _load_task_config.
  intros (u & s1 & ->%print_Done & H)%bind_inv_Done.
  apply load_Done in H as (tc & Hload & -> & ->).
  exists tc. split_and!; [done| |ran_solve].
  simpl. by rewrite lookup_app_r, Nat.sub_diag.
Qed.

Lemma _override_repo_Done taskname repository tc s u s' :
  _override_repo taskname repository tc s = (Done u, s') →
  ∃ d2g env,
    environ s !! "D2G_PATH" = Some d2g ∧
    (if truthy taskname
     then match tc with
          | Some l => ∃ d, heap s !! l = Some d ∧ env = Some d
          | None => env = None
          end
     else True) ∧
    ran s s' (override_steps d2g taskname repository env).
Proof.
  unfold _override_repo.
  intros (? & s1 & ->%print_Done & H)%bind_inv_Done.
  apply bind_inv_Done in H as (d2g & s1 & [Hd2g ->]%os_environ_get_Done & H).
  unfold override_steps. destruct (truthy taskname).
  - rewrite bind_assoc in H. apply bind_inv_Done in H as (env & s1 & Henv & H).
    apply checked_run_Done in H as (w & Hspawn & ->).
    exists d2g, env. split; [done|]. destruct tc as [l|].
    + apply bind_inv_Done in Henv as (d & s2 & [Hl ->]%deref_Done & [= <- <-]).
      split; [by exists d|ran_solve].
    + injection Henv as <- <-. split; [done|ran_solve].
  - apply checked_run_Done in H as (w & Hspawn & ->).
    exists d2g, None. split_and!; [done..|ran_solve].
Qed.

Lemma _execute_metric_Done taskname metric s u s' :
  _execute_metric taskname metric s = (Done u, s') →
  ∃ d2g d, environ s !! "D2G_PATH" = Some d2g ∧
           metric_steps d2g taskname metric d ∧
           ran s s' d.
Proof.
  unfold _execute_metric, _get_metric_script_path.
  intros (? & s1 & ->%print_Done & H)%bind_inv_Done.
  rewrite !bind_assoc in H.
  apply bind_inv_Done in H as (d2g & s1 & [Hd2g ->]%os_environ_get_Done & H).
  rewrite bind_assoc in H.
  apply bind_inv_Done in H as (sh & s1 & [Hsh ->]%os_path_exists_Done & H).
  exists d2g. destruct sh.
  - apply checked_run_Done in H as (w & Hspawn & ->).
    eexists. split_and!; [done|apply metric_sh|ran_solve].
  - rewrite bind_assoc in H.
    apply bind_inv_Done in H as (py & s1 & [Hpy ->]%os_path_exists_Done & H).
    destruct py; apply checked_run_Done in H as (w & Hspawn & ->).
    + eexists. split_and!; [done|apply metric_py|ran_solve].
    + eexists. split_and!; [done|apply metric_gradle|ran_solve].
Qed.

(** A completed loop is the sequence of its completed iterations, as
    long as every iteration keeps what the next one relies on. *)
Lemma for_each_Done {A} (P : A → list event → Prop) (Inv : state W → Prop)
    (xs : list A) (body : A → Cmd unit) s u s' :
  (∀ x s1 s2 v, Inv s1 → body x s1 = (Done v, s2) →
                ∃ d, P x d ∧ ran s1 s2 d ∧ Inv s2) →
  Inv s →
  for_each xs body s = (Done u, s') →
  ∃ ds, Forall2 P xs ds ∧ ran s s' (concat ds) ∧ Inv s'.
Proof.
  intros Hbody. revert s. induction xs as [|x xs IH]; intros s HI; simpl.
  - unfold ret. intros ?; simplify_eq.
    exists []. split_and!; [by constructor|apply ran_refl|done].
  - intros (v & s1 & Hx & Hrest)%bind_inv_Done.
    destruct (Hbody _ _ _ _ HI Hx) as (d & Hd & Hran & HI1).
    destruct (IH _ HI1 Hrest) as (ds & Hds & Hran' & HI').
    exists (d :: ds). split_and!; [by constructor| |done].
    simpl. by eapply ran_trans.
Qed.

Lemma _execute_metrics_Done taskname metrics d2g s u s' :
  environ s !! "D2G_PATH" = Some d2g →
  _execute_metrics taskname metrics s = (Done u, s') →
  ∃ ms, Forall2 (metric_steps d2g taskname) (str_split_space metrics) ms ∧
        ran s s' (concat ms).
Proof.
  intros Hd2g H. unfold _execute_metrics in H.
  destruct (for_each_Done (metric_steps d2g taskname)
              (λ s1, environ s1 = environ s)
              (str_split_space metrics) (_execute_metric taskname) s u s')
    as (ms & Hms & Hran & _);
    [|done|done|by exists ms].
  intros m s1 s2 v He Hm.
  apply _execute_metric_Done in Hm as (d2g' & d & Hd2g' & Hd & Hran).
  rewrite He, Hd2g in Hd2g'. injection Hd2g' as <-.
  exists d. split_and!; [done..|]. destruct Hran as (-> & _). done.
Qed.

Lemma _evaluate_metrics_Done taskname metrics tcl acl s u s' :
  _evaluate_metrics taskname metrics tcl acl s = (Done u, s') →
  ∃ d2g tc ac, environ s !! "D2G_PATH" = Some d2g ∧
               heap s !! tcl = Some tc ∧ heap s !! acl = Some ac ∧
               tc ##ₘ ac ∧
               ran s s' (evaluate_steps d2g taskname (ac ∪ tc ∪ environ s)).
Proof.
  unfold _evaluate_metrics.
  intros (? & s1 & ->%print_Done & H)%bind_inv_Done.
  apply bind_inv_Done in H as (d2g & s1 & [Hd2g ->]%os_environ_get_Done & H).
  apply bind_inv_Done in H as (env & s1 & Henv & H).
  apply dict_environ2_Done in Henv as (tc & ac & Htc & Hac & Hdisj & -> & ->).
  apply checked_run_Done in H as (w & Hspawn & ->).
  exists d2g, tc, ac. split_and!; [done..|ran_solve].
Qed.

Lemma override_steps_falsy d2g taskname repository env env' :
  truthy taskname = false →
  override_steps d2g taskname repository env
  = override_steps d2g taskname repository env'.
Proof. unfold override_steps. by intros ->. Qed.

Lemma _evaluate_task_Done taskname acl ac d2g s u s' :
  environ s !! "D2G_PATH" = Some d2g →
  heap s !! acl = Some ac →
  _evaluate_task taskname acl s = (Done u, s') →
  ∃ d, task_steps (environ s) d2g ac taskname d ∧ ran s s' d.
Proof.
  intros Hd2g Hac. unfold _evaluate_task.
  intros (tcl & s1 & Hload & H)%bind_inv_Done.
  apply _load_task_config_Done in Hload as (tc & _ & Htc & Hran1).
  pose proof (ran_heap _ _ _ _ _ Hran1 Hac) as Hac1.
  apply bind_inv_Done in H as (repository & ? & Hget & H).
  apply getitem_Done in Hget as (? & Hac1' & Hrepo & ->).
  rewrite Hac1 in Hac1'. injection Hac1' as <-.
  apply bind_inv_Done in H as (? & s2 & Hover & H).
  apply _override_repo_Done in Hover as (d2g' & env & Hd2g' & Henv & Hran2).
  rewrite (proj1 Hran1), Hd2g in Hd2g'. injection Hd2g' as <-.
  assert (override_steps d2g (Some taskname) repository env
          = override_steps d2g (Some taskname) repository (Some tc)) as Hsteps.
  { destruct (truthy (Some taskname)) eqn:Htruthy.
    - destruct Henv as (? & Htc' & ->). rewrite Htc in Htc'. by injection Htc' as <-.
    - by apply override_steps_falsy. }
  rewrite Hsteps in Hran2. clear Hsteps Henv env.
  pose proof (ran_heap _ _ _ _ _ Hran2 Htc) as Htc2.
  pose proof (ran_heap _ _ _ _ _ Hran2 Hac1) as Hac2.
  pose proof (ran_trans _ _ _ _ _ Hran1 Hran2) as Hran12.
  apply bind_inv_Done in H as (metrics & ? & Hget & H).
  apply getitem_Done in Hget as (? & Htc2' & Hmetrics & ->).
  rewrite Htc2 in Htc2'. injection Htc2' as <-.
  apply bind_inv_Done in H as (? & s3 & Hexec & H).
  apply (_execute_metrics_Done _ _ d2g) in Hexec as (ms & Hms & Hran3);
    [|by rewrite (proj1 Hran12)].
  pose proof (ran_heap _ _ _ _ _ Hran3 Htc2) as Htc3.
  pose proof (ran_heap _ _ _ _ _ Hran3 Hac2) as Hac3.
  pose proof (ran_trans _ _ _ _ _ Hran12 Hran3) as Hran123.
  apply bind_inv_Done in H as (metrics' & ? & Hget & H).
  apply getitem_Done in Hget as (? & _ & _ & ->).
  apply _evaluate_metrics_Done in H as (d2g' & tc' & ac' & Hd2g' & Htc3' & Hac3' & Hdisj & Hran4).
  rewrite Htc3 in Htc3'. injection Htc3' as <-.
  rewrite Hac3 in Hac3'. injection Hac3' as <-.
  rewrite (proj1 Hran123) in Hd2g', Hran4. rewrite Hd2g in Hd2g'. injection Hd2g' as <-.
  pose proof (ran_trans _ _ _ _ _ Hran123 Hran4) as Hran.
  eexists. split; [|by rewrite <- !app_assoc in Hran].
  by exists repository, tc, metrics, ms.
Qed.

Lemma _create_artifact_Done acl ac s u s' :
  heap s !! acl = Some ac →
  _create_artifact acl s = (Done u, s') →
  ∃ d2g, environ s !! "D2G_PATH" = Some d2g ∧
         ran s s'
           [EPrint "Creating artifact";
            ERun [os_path_join d2g "scripts/create_artifact.sh"] None
              (Some (ac ∪ environ s)) (inl 0)].
Proof.
  intros Hac. unfold _create_artifact.
  intros (? & s1 & ->%print_Done & H)%bind_inv_Done.
  apply bind_inv_Done in H as (d2g & ? & [Hd2g ->]%os_environ_get_Done & H).
  apply bind_inv_Done in H as (env & ? & Henv & H).
  apply dict_environ1_Done in Henv as (? & Hac' & -> & ->).
  simpl in Hac'. rewrite Hac in Hac'. injection Hac' as <-.
  apply checked_run_Done in H as (w & Hspawn & ->).
  exists d2g. split; [done|ran_solve].
Qed.

Lemma _present_results_Done acl ac s u s' :
  heap s !! acl = Some ac →
  _present_results acl s = (Done u, s') →
  ∃ d2g, environ s !! "D2G_PATH" = Some d2g ∧
         ran s s' (present_steps d2g (ac ∪ environ s)).
Proof.
  intros Hac. unfold _present_results.
  intros (? & s1 & Hart & H)%bind_inv_Done.
  apply (_create_artifact_Done _ ac) in Hart as (d2g & Hd2g & Hran1); [|done].
  pose proof (ran_heap _ _ _ _ _ Hran1 Hac) as Hac1.
  apply bind_inv_Done in H as (d2g' & ? & [Hd2g' ->]%os_environ_get_Done & H).
  rewrite (proj1 Hran1), Hd2g in Hd2g'. injection Hd2g' as <-.
  apply bind_inv_Done in H as (env & ? & Henv & H).
  apply dict_environ1_Done in Henv as (? & Hac' & -> & ->).
  rewrite Hac1 in Hac'. injection Hac' as <-.
  apply checked_run_Done in H as (w & Hspawn & ->).
  exists d2g. split; [done|].
  eapply (ran_trans _ _ _ _ [_]) in Hran1; [exact Hran1|].
  rewrite <- (proj1 Hran1). ran_solve.
Qed.

Lemma _revert_checkout_Done s u s' :
  _revert_checkout s = (Done u, s') →
  ∃ d2g rc, environ s !! "D2G_PATH" = Some d2g ∧
            ran s s' [revert_event d2g (inl rc)].
Proof.
  unfold _revert_checkout.
  intros (d2g & ? & [Hd2g ->]%os_environ_get_Done & H)%bind_inv_Done.
  apply bind_inv_Done in H as (rc & s1 & Hrun & Hret).
  unfold subprocess_run in Hrun.
  destruct (spawn _ None None (world s)) as [[rc'|x] w]; [|done].
  unfold ret in Hret. simplify_eq. exists d2g, rc.
  split; [done|unfold revert_event; ran_solve].
Qed.

(** A completed run of the whole script. *)
Lemma _main_Done s u s' :
  _main s = (Done u, s') →
  ∃ d2g ac due_date repository tasks ts rc,
    environ s !! "D2G_PATH" = Some d2g ∧
    load_yaml ASSIGNMENT_FILE_NAME None (world s) = inl ac ∧
    ac !! "ASSIGNMENT_DUE_DATE" = Some due_date ∧
    ac !! "ASSIGNMENT_TEMPLATE_REPOSITORY" = Some repository ∧
    ac !! "ASSIGNMENT_TASKS" = Some tasks ∧
    Forall2 (task_steps (environ s) d2g ac) (str_split_space tasks) ts ∧
    ran s s'
      (load_assignment_steps ac ++
       checkout_steps d2g due_date ++
       override_steps d2g None repository None ++
       concat ts ++
       present_steps d2g (ac ∪ environ s) ++
       [revert_event d2g (inl rc)]).
Proof.
  unfold _main.
  intros (acl & s1 & Hload & H)%bind_inv_Done.
  apply _load_assignment_config_Done in Hload as (ac & Hload & Hac & Hran1).
  apply bind_inv_Done in H as (due_date & ? & Hget & H).
  apply getitem_Done in Hget as (? & Hac' & Hdue & ->).
  rewrite Hac in Hac'. injection Hac' as <-.
  apply bind_inv_Done in H as (? & s2 & Hcheckout & H).
  apply _checkout_due_date_Done in Hcheckout as (d2g & Hd2g & Hran2).
  rewrite (proj1 Hran1) in Hd2g.
  pose proof (ran_heap _ _ _ _ _ Hran2 Hac) as Hac2.
  pose proof (ran_trans _ _ _ _ _ Hran1 Hran2) as Hran12.
  apply bind_inv_Done in H as (repository & ? & Hget & H).
  apply getitem_Done in Hget as (? & Hac' & Hrepo & ->).
  rewrite Hac2 in Hac'. injection Hac' as <-.
  apply bind_inv_Done in H as (? & s3 & Hover & H).
  apply _override_repo_Done in Hover as (d2g' & env & Hd2g' & _ & Hran3).
  rewrite (proj1 Hran12), Hd2g in Hd2g'. injection Hd2g' as <-.
  rewrite (override_steps_falsy _ None _ env None) in Hran3 by done.
  pose proof (ran_heap _ _ _ _ _ Hran3 Hac2) as Hac3.
  pose proof (ran_trans _ _ _ _ _ Hran12 Hran3) as Hran123.
  apply bind_inv_Done in H as (tasks & ? & Hget & H).
  apply getitem_Done in Hget as (? & Hac' & Htasks & ->).
  rewrite Hac3 in Hac'. injection Hac' as <-.
  apply bind_inv_Done in H as (uloop & s4 & Hloop & H).
  destruct (for_each_Done (task_steps (environ s) d2g ac)
              (λ s0, environ s0 = environ s ∧ heap s0 !! acl = Some ac)
              (str_split_space tasks) (λ task, _evaluate_task task acl)
              s3 uloop s4)
    as (ts & Hts & Hran4 & He4 & Hac4); [|by rewrite (proj1 Hran123)|done|].
  { intros task sa sb v [Hea Haca] Htask.
    apply (_evaluate_task_Done _ _ ac d2g) in Htask as (d & Hd & Hran);
      [|by rewrite Hea|done].
    exists d. rewrite Hea in Hd. split_and!; [done..| |by eapply ran_heap].
    by rewrite (proj1 Hran). }
  pose proof (ran_trans _ _ _ _ _ Hran123 Hran4) as Hran1234.
  apply bind_inv_Done in H as (? & s5 & Hpresent & H).
  apply (_present_results_Done _ ac) in Hpresent as (d2g' & Hd2g' & Hran5);
    [|done].
  rewrite He4 in Hd2g', Hran5. rewrite Hd2g in Hd2g'. injection Hd2g' as <-.
  pose proof (ran_trans _ _ _ _ _ Hran1234 Hran5) as Hran12345.
  apply _revert_checkout_Done in H as (d2g' & rc & Hd2g' & Hran6).
  rewrite (proj1 Hran12345), Hd2g in Hd2g'. injection Hd2g' as <-.
  pose proof (ran_trans _ _ _ _ _ Hran12345 Hran6) as Hran.
  exists d2g, ac, due_date, repository, tasks, ts, rc.
  split_and!; [done| |done..|by rewrite <- !app_assoc in Hran].
  done.
Qed.

(** ** Running forwards *)

Lemma print_run line (s : state W) :
  print line s = (Done tt, emit (EPrint line) s).
Proof. reflexivity. Qed.

Lemma os_environ_get_found key (s : state W) v :
  environ s !! key = Some v → os_environ_get key s = (Done v, s).
Proof. intros Hk. unfold os_environ_get. by rewrite Hk. Qed.

Lemma getitem_found l key (s : state W) d v :
  heap s !! l = Some d → d !! key = Some v → getitem l key s = (Done v, s).
Proof. intros Hl Hk. unfold getitem, bind, deref, ret. by rewrite Hl, Hk. Qed.

(** [conf[key]] on a mapping without [key]: a [KeyError], which no
    handler of the script catches. *)
Lemma getitem_missing l key (s : state W) d :
  heap s !! l = Some d → d !! key = None →
  getitem l key s = (Raise (KeyError key), s).
Proof. intros Hl Hk. unfold getitem, bind, deref, raise. by rewrite Hl, Hk. Qed.

Lemma _load_assignment_config_found s ac :
  load_yaml ASSIGNMENT_FILE_NAME None (world s) = inl ac →
  _load_assignment_config s
  = (Done (length (heap s)), alloc ac (emits (load_assignment_steps ac) s)).
Proof.
  intros Hload.
  unfold _load_assignment_config, bind, print, try_except, conf_loader_load_yaml.
  simpl. rewrite Hload. unfold alloc, emits, emit. simpl.
  by rewrite <- app_assoc.
Qed.

Lemma alloc_lookup (s : state W) d d' :
  heap (alloc d (emits d' s)) !! length (heap s) = Some d.
Proof. simpl. by rewrite lookup_app_r, Nat.sub_diag. Qed.

(** What a computation that obeys the discipline does comes after what
    was done before it. *)
Lemma obeys_extends {A} last (m : Cmd A) s :
  obeys last m → ∃ d, trace (m s).2 = trace s ++ d.
Proof. intros Hm. destruct (Hm s) as (_ & d & Hd & _). by exists d. Qed.

Lemma bind_extends {A B} last (m : Cmd A) (k : A → Cmd B) s :
  (∀ a, obeys last (k a)) → ∃ d, trace (bind m k s).2 = trace (m s).2 ++ d.
Proof.
  intros Hk. unfold bind. destruct (m s) as [[a|c|e] s1]; simpl.
  - apply (obeys_extends _ _ _ (Hk a)).
  - exists []. by rewrite app_nil_r.
  - exists []. by rewrite app_nil_r.
Qed.

(** The first thing a task evaluation does is to print its line and to
    call the loader. *)
Lemma _load_task_config_begins taskname s :
  ∃ res rest,
    trace (_load_task_config taskname s).2
    = trace s ++
      EPrint ("Loading task configuration for task " +:+ taskname) ::
      ELoad (os_path_join taskname TASK_FILENAME) (Some (str_upper taskname)) res ::
      rest.
Proof.
  unfold _load_task_config, bind, print, try_except, conf_loader_load_yaml.
  simpl. destruct (load_yaml _ _ (world s)) as [tc|x]; simpl.
  - exists (inl tc), []. by rewrite <- app_assoc.
  - destruct (caught x).
    + rewrite _print_error_and_exit_run. simpl.
      eexists _, _. by rewrite <- !app_assoc.
    + simpl. exists (inr x), []. by rewrite <- app_assoc.
Qed.

Lemma _evaluate_task_begins taskname acl s :
  ∃ res rest,
    trace (_evaluate_task taskname acl s).2
    = trace s ++
      EPrint ("Loading task configuration for task " +:+ taskname) ::
      ELoad (os_path_join taskname TASK_FILENAME) (Some (str_upper taskname)) res ::
      rest.
Proof.
  destruct (_load_task_config_begins taskname s) as (res & rest & Hload).
  unfold _evaluate_task.
  match goal with
  | |- context [bind ?m ?k s] =>
      destruct (bind_extends nothing m k s) as (d & ->)
  end.
  { intros tcl.
    apply obeys_bind; [apply obeys_getitem|intros repository].
    apply obeys_bind; [apply obeys__override_repo|intros _].
    apply obeys_bind; [apply obeys_getitem|intros metrics].
    apply obeys_bind; [apply obeys__execute_metrics|intros _].
    apply obeys_bind; [apply obeys_getitem|intros metrics'].
    apply obeys__evaluate_metrics. }
  rewrite Hload. exists res, (rest ++ d). by rewrite <- app_assoc.
Qed.

(** A loop over one element is its body. *)
Lemma for_each_singleton {A} (x : A) (body : A → Cmd unit) s :
  for_each [x] body s = body x s.
Proof.
  simpl. unfold bind, ret. by destruct (body x s) as [[[]|c|e] s1].
Qed.

(** The loop stops at the first iteration that does not complete. *)
Lemma for_each_stops {A} (x : A) (xs : list A) (body : A → Cmd unit) s o s' :
  body x s = (o, s') → (∀ u, o ≠ Done u) →
  for_each (x :: xs) body s = (o, s').
Proof.
  intros Hx Ho. simpl. unfold bind. rewrite Hx.
  destruct o as [u|c|e]; [by destruct (Ho u)|done..].
Qed.

(** The command of a metric, found by probing the scripts. *)
Lemma _get_metric_script_path_run metric d2g s :
  environ s !! "D2G_PATH" = Some d2g →
  let base := os_path_join d2g ("scripts/metrics/" +:+ metric) in
  let sh := path_exists (base +:+ ".sh") (world s) in
  let py := path_exists (base +:+ ".py") (world s) in
  _get_metric_script_path metric s
  = (Done (if sh then [base +:+ ".sh"]
           else if py then [base +:+ ".py"]
           else ["./gradlew"; metric]),
     emits (if sh then [EExists (base +:+ ".sh") true]
            else [EExists (base +:+ ".sh") false;
                  EExists (base +:+ ".py") py]) s).
Proof.
  intros Hd2g base sh py.
  unfold _get_metric_script_path.
  rewrite (bind_Done _ _ _ _ _ (os_environ_get_found _ _ _ Hd2g)).
  fold base. unfold bind, os_path_exists, ret. simpl. fold sh.
  destruct sh; [done|]. simpl. fold py.
  unfold emits, emit. simpl. rewrite <- app_assoc. by destruct py.
Qed.

(** A process whose exit code is tested is started, whatever comes
    after. *)
Lemma checked_run_begins argv cwd env msg s :
  ∃ res rest,
    trace ((returncode <- subprocess_run argv cwd env ;;
            if decide (returncode ≠ 0) then _print_error_and_exit msg
            else ret tt) s).2
    = trace s ++ ERun argv cwd env res :: rest.
Proof.
  unfold bind, subprocess_run.
  destruct (spawn argv cwd env (world s)) as [[rc|x] w]; simpl.
  - case_decide.
    + rewrite _print_error_and_exit_run. simpl.
      exists (inl rc), (abort_lines msg). by rewrite <- app_assoc.
    + by exists (inl rc), [].
  - by exists (inr x), [].
Qed.

(** One metric: its line, the probes, and the process. *)
Lemma _execute_metric_begins taskname metric d2g s :
  environ s !! "D2G_PATH" = Some d2g →
  let base := os_path_join d2g ("scripts/metrics/" +:+ metric) in
  ∃ probes argv res rest,
    trace (_execute_metric taskname metric s).2
    = trace s ++
      EPrint ("Executing metric " +:+ metric +:+ " for task " +:+ taskname) ::
      probes ++ ERun argv (Some taskname) None res :: rest ∧
    Forall (λ e, ∃ path b, e = EExists path b) probes ∧
    (argv = [base +:+ ".sh"] ∨ argv = [base +:+ ".py"] ∨
     argv = ["./gradlew"; metric]).
Proof.
  intros Hd2g base. unfold _execute_metric.
  rewrite (bind_Done _ _ _ _ _ (print_run _ s)).
  pose proof (_get_metric_script_path_run metric d2g
                (emit (EPrint ("Executing metric " +:+ metric +:+ " for task "
                               +:+ taskname)) s) Hd2g) as Hpath.
  simpl in Hpath. fold base in Hpath.
  rewrite (bind_Done _ _ _ _ _ Hpath).
  match goal with
  | |- context [bind (subprocess_run ?argv ?cwd ?env) ?k ?s0] =>
      destruct (checked_run_begins argv cwd env
                  ("Failed to execute metric " +:+ metric) s0)
        as (res & rest & ->)
  end.
  destruct (path_exists (base +:+ ".sh") (world s)).
  - eexists [_], _, res, rest. simpl. rewrite <- !app_assoc.
    split_and!; [done| |by left].
    constructor; [by eexists _, _|constructor].
  - eexists [_; _], _, res, rest. simpl. rewrite <- !app_assoc.
    split_and!; [done| |].
    + constructor; [by eexists _, _|].
      constructor; [by eexists _, _|constructor].
    + destruct (path_exists (base +:+ ".py") (world s)); [by right; left|].
      by right; right.
Qed.

(** *** The steps of [_main], one after the other *)

(** A read of a configuration leaves the state as it is. *)
Lemma getitem_result l key (s : state W) v :
  (getitem l key s).1 = Done v → getitem l key s = (Done v, s).
Proof.
  unfold getitem, bind, deref, ret, raise.
  destruct (heap s !! l) as [d|]; simpl; [|done].
  destruct (d !! key); simpl; [|done]. by intros ->.
Qed.

Lemma obeys_environ {A} last (m : Cmd A) s o s' :
  obeys last m → m s = (o, s') → environ s' = environ s.
Proof. intros Hm Hrun. destruct (Hm s) as [He _]. by rewrite Hrun in He. Qed.

(** When every statement of [_main] before the last has completed, the
    last one starts the revert of the checkout, and its result decides
    nothing but whether an exception is raised: any exit code ends the
    script normally. *)
Lemma _main_completes s acl s1 due_date s2 repository s3 tasks s4 s5 :
  _load_assignment_config s = (Done acl, s1) →
  (getitem acl "ASSIGNMENT_DUE_DATE" s1).1 = Done due_date →
  _checkout_due_date due_date s1 = (Done tt, s2) →
  (getitem acl "ASSIGNMENT_TEMPLATE_REPOSITORY" s2).1 = Done repository →
  _override_repo None repository None s2 = (Done tt, s3) →
  (getitem acl "ASSIGNMENT_TASKS" s3).1 = Done tasks →
  for_each (str_split_space tasks) (λ task, _evaluate_task task acl) s3
  = (Done tt, s4) →
  _present_results acl s4 = (Done tt, s5) →
  ∃ d2g,
    environ s !! "D2G_PATH" = Some d2g ∧
    ∀ res w,
      spawn [os_path_join d2g "scripts/revert_checkout.sh"] None None (world s5)
      = (res, w) →
      _main s = (match res with inl _ => Done tt | inr x => Raise x end,
                 set_world w (emit (revert_event d2g res) s5)).
Proof.
  intros Hload Hdue Hcheckout Hrepo Hoverride Htasks Hloop Hpresent.
  pose proof (obeys_environ _ _ _ _ _ obeys__load_assignment_config Hload)
    as He1.
  pose proof (obeys_environ _ _ _ _ _ (obeys__checkout_due_date due_date)
                Hcheckout) as He2.
  pose proof (obeys_environ _ _ _ _ _ (obeys__override_repo None repository None)
                Hoverride) as He3.
  pose proof (obeys_environ _ _ _ _ _
                (obeys_for_each (str_split_space tasks)
                   (λ task, _evaluate_task task acl)
                   (λ task, obeys__evaluate_task task acl)) Hloop) as He4.
  pose proof (obeys_environ _ _ _ _ _ (obeys__present_results acl) Hpresent)
    as He5.
  destruct (_checkout_due_date_Done _ _ _ _ Hcheckout) as (d2g & Hd2g & _).
  rewrite He1 in Hd2g. exists d2g. split; [done|]. intros res w Hspawn.
  unfold _main.
  rewrite (bind_Done _ _ _ _ _ Hload).
  rewrite (bind_Done _ _ _ _ _ (getitem_result _ _ _ _ Hdue)).
  rewrite (bind_Done _ _ _ _ _ Hcheckout).
  rewrite (bind_Done _ _ _ _ _ (getitem_result _ _ _ _ Hrepo)).
  rewrite (bind_Done _ _ _ _ _ Hoverride).
  rewrite (bind_Done _ _ _ _ _ (getitem_result _ _ _ _ Htasks)).
  rewrite (bind_Done _ _ _ _ _ Hloop).
  rewrite (bind_Done _ _ _ _ _ Hpresent).
  assert (environ s5 !! "D2G_PATH" = Some d2g) as Hd2g5 by congruence.
  unfold _revert_checkout, bind, os_environ_get, subprocess_run, ret.
  rewrite Hd2g5, Hspawn. by destruct res.
Qed.

(** ** The properties of the specification *)

(** C1, as amended. The script has no [try]/[finally]: the revert of the
    checkout is the last statement of [_main]. When every statement
    before it has completed (the assignment was loaded, its three keys
    were read, the checkout, the override, the loop over the tasks and
    the presentation of the results returned), the revert is started in
    the world these steps left, as the last event of the run; whatever
    exit code it returns the script ends normally, with status 0. A run
    that completes ends with the revert, and a run that gives up at a
    failed step never starts it. *)
Theorem revert_checkout_ends_completed_runs :
  (∀ s acl s1 due_date s2 repository s3 tasks s4 s5,
     _load_assignment_config s = (Done acl, s1) →
     (getitem acl "ASSIGNMENT_DUE_DATE" s1).1 = Done due_date →
     _checkout_due_date due_date s1 = (Done tt, s2) →
     (getitem acl "ASSIGNMENT_TEMPLATE_REPOSITORY" s2).1 = Done repository →
     _override_repo None repository None s2 = (Done tt, s3) →
     (getitem acl "ASSIGNMENT_TASKS" s3).1 = Done tasks →
     for_each (str_split_space tasks) (λ task, _evaluate_task task acl) s3
     = (Done tt, s4) →
     _present_results acl s4 = (Done tt, s5) →
     ∃ d2g,
       environ s !! "D2G_PATH" = Some d2g ∧
       ∀ res w,
         spawn [os_path_join d2g "scripts/revert_checkout.sh"] None None
           (world s5) = (res, w) →
         _main s = (match res with inl _ => Done tt | inr x => Raise x end,
                    set_world w
                      (emit (ERun [os_path_join d2g "scripts/revert_checkout.sh"]
                               None None res) s5)) ∧
         (∀ rc, res = inl rc → exit_status (_main s).1 = 0)) ∧
  (∀ s s',
     _main s = (Done tt, s') →
     exit_status (Done tt) = 0 ∧
     ∃ d2g good rc,
       environ s !! "D2G_PATH" = Some d2g ∧
       Forall fine good ∧
       trace s' = trace s ++ good ++ [revert_event d2g (inl rc)]) ∧
  (∀ s d2g rc w,
     environ s !! "D2G_PATH" = Some d2g →
     spawn [os_path_join d2g "scripts/revert_checkout.sh"] None None (world s)
     = (inl rc, w) →
     _revert_checkout s
     = (Done tt, set_world w (emit (revert_event d2g (inl rc)) s))) ∧
  (∀ s code s' d,
     _main s = (Exit code, s') →
     trace s' = trace s ++ d →
     Forall (λ e, revert_shaped e = false) d).
Proof.
  split_and!.
  - intros s acl s1 due_date s2 repository s3 tasks s4 s5
      Hload Hdue Hcheckout Hrepo Hoverride Htasks Hloop Hpresent.
    destruct (_main_completes _ _ _ _ _ _ _ _ _ _ Hload Hdue Hcheckout Hrepo
                Hoverride Htasks Hloop Hpresent) as (d2g & Hd2g & Hmain).
    exists d2g. split; [done|]. intros res w Hspawn.
    pose proof (Hmain res w Hspawn) as Hrun. split; [exact Hrun|].
    intros rc ->. by rewrite Hrun.
  - intros s s' Hrun. split; [done|].
    destruct (_main_shape _ _ _ Hrun) as (d & Hd & Hshape).
    inversion Hshape as [a good tail Hgood (d2g & rc & Hd2g & ->) Ho Heq| | |].
    subst. by exists d2g, good, rc.
  - intros s d2g rc w Hd2g Hspawn.
    unfold _revert_checkout, bind, os_environ_get, subprocess_run, ret.
    by rewrite Hd2g, Hspawn.
  - apply main_aborted_no_revert.
Qed.


(** C4. In a run of [_main], a load of a configuration file that raises
    [FileNotFoundError] or [YAMLError] is followed by the message naming
    the file and the usage lines and by nothing else, and the script
    exits with [exit(-1)], a non-zero status. *)
Theorem failed_load_stops_run s o s' pre path prefix x post :
  _main s = (o, s') →
  trace s' = trace s ++ pre ++ ELoad path prefix (inr x) :: post →
  x = FileNotFoundError ∨ x = YAMLError →
  o = Exit (-1) ∧ exit_status o ≠ 0 ∧
  post = abort_lines ("Failed to load " +:+ path) ∧
  Forall ok_event pre.
Proof.
  intros Hrun Htrace Hx.
  destruct (main_not_ok_event _ _ _ _ _ _ Hrun Htrace eq_refl) as [Hpre Ho].
  destruct o as [[]|code|y].
  - destruct Ho as (_ & d2g & rc & _ & Heq). discriminate Heq.
  - destruct Ho as (-> & _ & _ & msg & -> & ->).
    split_and!; [done..|by apply Forall_fine_ok].
  - destruct Ho as [_ [-> Hy]]. by destruct Hx as [->| ->].
Qed.

(** C3. The command of a metric is decided by two file probes under
    [D2G_PATH], in this order: [scripts/metrics/<metric>.sh] if it is
    there, else [scripts/metrics/<metric>.py] if it is there, else
    [./gradlew <metric>]. Nothing but the name of the metric, [D2G_PATH]
    and the files present at the moment of the call enters the result,
    and the call leaves the world, the environment and the heap as they
    are: nothing is remembered from one call to the next. *)
Theorem metric_script_resolution metric d2g s :
  environ s !! "D2G_PATH" = Some d2g →
  let base := os_path_join d2g ("scripts/metrics/" +:+ metric) in
  let sh := path_exists (base +:+ ".sh") (world s) in
  let py := path_exists (base +:+ ".py") (world s) in
  base = (if (String.eqb d2g "" || ends_with_slash d2g)%bool
          then d2g else d2g +:+ "/") +:+ "scripts/metrics/" +:+ metric ∧
  _get_metric_script_path metric s
  = (Done (if sh then [base +:+ ".sh"]
           else if py then [base +:+ ".py"]
           else ["./gradlew"; metric]),
     emits (if sh then [EExists (base +:+ ".sh") true]
            else [EExists (base +:+ ".sh") false;
                  EExists (base +:+ ".py") py]) s).
Proof.
  intros Hd2g base sh py. split.
  - unfold base. by rewrite os_path_join_relative by reflexivity.
  - by apply _get_metric_script_path_run.
Qed.

(** C5. A run of [_main] that completes did, in this order and each
    once: the load of [assignment.yml], the checkout at the due date, the
    override of the assignment, the evaluation of every task of
    [ASSIGNMENT_TASKS] in the order of the list, the artifact and the
    printing of the results, and the revert of the checkout. *)
Theorem pipeline_steps_in_order s s' :
  _main s = (Done tt, s') →
  ∃ d2g ac due_date repository tasks ts rc,
    environ s !! "D2G_PATH" = Some d2g ∧
    ac !! "ASSIGNMENT_DUE_DATE" = Some due_date ∧
    ac !! "ASSIGNMENT_TEMPLATE_REPOSITORY" = Some repository ∧
    ac !! "ASSIGNMENT_TASKS" = Some tasks ∧
    Forall2 (task_steps (environ s) d2g ac) (str_split_space tasks) ts ∧
    trace s' =
      trace s ++
      load_assignment_steps ac ++
      checkout_steps d2g due_date ++
      override_steps d2g None repository None ++
      concat ts ++
      present_steps d2g (ac ∪ environ s) ++
      [revert_event d2g (inl rc)].
Proof.
  intros Hrun.
  destruct (_main_Done _ _ _ Hrun)
    as (d2g & ac & due_date & repository & tasks & ts & rc
        & Hd2g & _ & Hdue & Hrepo & Htasks & Hts & _ & _ & Htrace).
  by exists d2g, ac, due_date, repository, tasks, ts, rc.
Qed.
(** *** The evaluation of one task *)






(** *** Configurations in the heap and in the environments of processes *)

Lemma obeys_frame {A} last (m : Cmd A) s :
  obeys last m →
  environ (m s).2 = environ s ∧
  ∀ l (conf : dict), heap s !! l = Some conf → heap (m s).2 !! l = Some conf.
Proof.
  intros Hm. destruct (Hm s) as (He & d & _ & -> & _). split; [done|].
  intros l conf Hl. by apply lookup_app_l_Some.
Qed.

Lemma metric_steps_configs env0 ac tcs d2g taskname metric d :
  metric_steps d2g taskname metric d →
  loaded d = [] ∧ Forall (env_from_configs env0 ac tcs) d.
Proof. intros []; (split; [done|by repeat constructor]). Qed.

Lemma metrics_steps_configs env0 ac tcs d2g taskname metrics ms :
  Forall2 (metric_steps d2g taskname) metrics ms →
  loaded (concat ms) = [] ∧ Forall (env_from_configs env0 ac tcs) (concat ms).
Proof.
  induction 1 as [|m d metrics ms Hd _ [IHl IHe]]; [done|]. simpl.
  destruct (metric_steps_configs env0 ac tcs _ _ _ _ Hd) as [Hl He].
  rewrite loaded_app, Hl, IHl. split; [done|by apply Forall_app].
Qed.

Lemma env_from_configs_mono env0 ac tcs tcs' e :
  tcs ⊆ tcs' → env_from_configs env0 ac tcs e → env_from_configs env0 ac tcs' e.
Proof.
  intros Hsub. destruct e as [| | |argv cwd [env|] res]; simpl; try done.
  intros [->|(tc & Htc & Henv)]; [by left|right]. exists tc. split; [|done].
  by apply Hsub.
Qed.

Lemma task_steps_configs env0 d2g ac taskname d :
  task_steps env0 d2g ac taskname d →
  ∃ tc, loaded d = [tc] ∧ Forall (env_from_configs env0 ac [tc]) d.
Proof.
  intros (repository & tc & metrics & ms & _ & _ & _ & Hms & ->).
  destruct (metrics_steps_configs env0 ac [tc] _ _ _ _ Hms) as [Hl He].
  exists tc. split.
  - rewrite !loaded_app, Hl. unfold override_steps.
    by destruct (truthy (Some taskname)).
  - repeat (apply Forall_app; split); [|  |done|].
    + by repeat constructor.
    + unfold override_steps. destruct (truthy (Some taskname)).
      * constructor; [done|]. constructor; [|constructor].
        simpl. right. exists tc. split; [|by left].
        by apply list_elem_of_singleton.
      * by repeat constructor.
    + constructor; [done|]. constructor; [|constructor].
      simpl. right. exists tc. split; [|by right].
      by apply list_elem_of_singleton.
Qed.

Lemma tasks_steps_configs env0 d2g ac tasks ts :
  Forall2 (task_steps env0 d2g ac) tasks ts →
  ∃ tcs, loaded (concat ts) = tcs ∧ length tcs = length tasks ∧
         Forall (env_from_configs env0 ac tcs) (concat ts).
Proof.
  induction 1 as [|t d tasks ts Hd _ (tcs & Hl & Hlen & He)].
  - by exists [].
  - destruct (task_steps_configs _ _ _ _ _ Hd) as (tc & Hl1 & He1).
    exists (tc :: tcs). simpl. rewrite loaded_app, Hl1, Hl.
    split_and!; [done|by rewrite Hlen|]. apply Forall_app. split.
    + eapply Forall_impl; [exact He1|]. intros e.
      apply env_from_configs_mono.
      intros x Hx%list_elem_of_singleton. subst x. by left.
    + eapply Forall_impl; [exact He|]. intros e.
      apply env_from_configs_mono. intros x Hx. by right.
Qed.

(** C7. Whatever the run of [_main] or of one of its steps, [os.environ]
    is the same afterwards and every dictionary of the heap is the same
    afterwards; the heap grows by the dictionaries the loader returned,
    one per load, and by nothing else. In a run that completes these are
    the assignment configuration and one configuration per entry of the
    task list, and every environment given to a process is a loaded task
    configuration itself or [os.environ] under the loaded configurations:
    every step gets the mappings as they were loaded. *)
Theorem configurations_are_never_mutated :
  (∀ s o s',
     _main s = (o, s') →
     environ s' = environ s ∧
     ∃ d, trace s' = trace s ++ d ∧ heap s' = heap s ++ loaded d) ∧
  (∀ taskname acl s l (conf : dict),
     heap s !! l = Some conf →
     environ (_evaluate_task taskname acl s).2 = environ s ∧
     heap (_evaluate_task taskname acl s).2 !! l = Some conf) ∧
  (∀ acl s l (conf : dict),
     heap s !! l = Some conf →
     environ (_present_results acl s).2 = environ s ∧
     heap (_present_results acl s).2 !! l = Some conf) ∧
  (∀ s s' d,
     _main s = (Done tt, s') →
     trace s' = trace s ++ d →
     ∃ ac tcs tasks,
       ac !! "ASSIGNMENT_TASKS" = Some tasks ∧
       loaded d = ac :: tcs ∧
       heap s' = heap s ++ ac :: tcs ∧
       length tcs = length (str_split_space tasks) ∧
       Forall (env_from_configs (environ s) ac tcs) d).
Proof.
  split_and!.
  - intros s o s' Hrun. destruct (obeys__main s) as (He & d & Hd & Hh & _).
    rewrite Hrun in He, Hd, Hh. split; [done|]. by exists d.
  - intros taskname acl s l conf Hl.
    destruct (obeys_frame _ _ s (obeys__evaluate_task taskname acl)) as [He Hh].
    split; [done|by apply Hh].
  - intros acl s l conf Hl.
    destruct (obeys_frame _ _ s (obeys__present_results acl)) as [He Hh].
    split; [done|by apply Hh].
  - intros s s' d Hrun Htrace.
    destruct (_main_Done _ _ _ Hrun)
      as (d2g & ac & due_date & repository & tasks & ts & rc
          & _ & _ & _ & _ & Htasks & Hts & _ & Hheap & Htrace').
    rewrite Htrace' in Htrace. apply app_inv_head in Htrace. subst d.
    destruct (tasks_steps_configs _ _ _ _ _ Hts) as (tcs & Hl & Hlen & He).
    exists ac, tcs, tasks.
    assert (loaded (load_assignment_steps ac ++ checkout_steps d2g due_date ++
                    override_steps d2g None repository None ++ concat ts ++
                    present_steps d2g (ac ∪ environ s) ++
                    [revert_event d2g (inl rc)]) = ac :: tcs) as Hloaded.
    { rewrite !loaded_app, Hl. simpl. by rewrite app_nil_r. }
    split_and!; [done|done|by rewrite Hheap, Hloaded|done|].
    repeat (apply Forall_app; split); [| | |done| |].
    + by repeat constructor.
    + by repeat constructor.
    + by repeat constructor.
    + constructor; [done|]. constructor; [by left|].
      constructor; [by left|constructor].
    + by repeat constructor.
Qed.

(** C8, as amended. The evaluation step is started with [os.environ]
    under the task configuration and the assignment configuration: a key
    of either configuration takes precedence over the environment of the
    process. This presupposes that the two configurations share no key:
    [dict(os.environ, **task, **assignment)] refuses a keyword given
    twice, so with a common key the step raises [TypeError] after its
    line is printed and starts no process. *)
Theorem evaluation_environment taskname metrics tcl acl tc ac d2g s :
  environ s !! "D2G_PATH" = Some d2g →
  heap s !! tcl = Some tc →
  heap s !! acl = Some ac →
  let script := os_path_join d2g "scripts/evaluate_task.py" in
  let s1 := emit (EPrint ("Evaluating metrics for task " +:+ taskname)) s in
  let env := ac ∪ tc ∪ environ s in
  (tc ##ₘ ac →
     (∃ res rest,
        trace (_evaluate_metrics taskname metrics tcl acl s).2
        = trace s1 ++
          ERun [script; taskname] (Some taskname) (Some env) res :: rest) ∧
     ∀ key,
       env !! key = match ac !! key, tc !! key with
                    | Some v, _ => Some v
                    | None, Some v => Some v
                    | None, None => environ s !! key
                    end) ∧
  (¬ tc ##ₘ ac →
     _evaluate_metrics taskname metrics tcl acl s
     = (Raise (TypeError "dict() got multiple values for keyword argument"),
        s1)).
Proof.
  intros Hd2g Htc Hac script s1 env.
  pose proof (os_environ_get_found "D2G_PATH" s1 d2g Hd2g) as Hget.
  split.
  - intros Hdisj. split.
    + assert (dict_environ2 tcl acl s1 = (Done env, s1)) as Hdict.
      { unfold dict_environ2, bind, deref. simpl. rewrite Htc. simpl.
        rewrite Hac. simpl. by destruct (decide (tc ##ₘ ac)). }
      unfold _evaluate_metrics.
      rewrite (bind_Done _ _ _ _ _ (print_run _ s)). fold s1.
      rewrite (bind_Done _ _ _ _ _ Hget).
      rewrite (bind_Done _ _ _ _ _ Hdict).
      fold script. unfold bind, subprocess_run.
      destruct (spawn [script; taskname] (Some taskname) (Some env) (world s1))
        as [[rc|x] w]; simpl.
      * case_decide.
        -- rewrite _print_error_and_exit_run. simpl.
           exists (inl rc), (abort_lines "Failed to execute evaluate_task.py").
           by rewrite <- app_assoc.
        -- simpl. by exists (inl rc), [].
      * by exists (inr x), [].
    + intros key. unfold env. rewrite !lookup_union.
      by destruct (ac !! key), (tc !! key), (environ s !! key).
  - intros Hn.
    assert (dict_environ2 tcl acl s1
            = (Raise (TypeError "dict() got multiple values for keyword argument"),
               s1)) as Hdict.
    { unfold dict_environ2, bind, deref, raise. simpl. rewrite Htc. simpl.
      rewrite Hac. simpl. by destruct (decide (tc ##ₘ ac)). }
    unfold _evaluate_metrics.
    rewrite (bind_Done _ _ _ _ _ (print_run _ s)). fold s1.
    rewrite (bind_Done _ _ _ _ _ Hget).
    by rewrite (bind_Raise _ _ _ _ _ Hdict).
Qed.

Lemma _main_obeys_tail acl :
  obeys reverted (_present_results acl ;; _revert_checkout).
Proof.
  apply obeys_bind; [apply obeys__present_results|intros _].
  apply obeys__revert_checkout.
Qed.

(** C9. [""] split at the spaces is the list of one empty string, so
    the loop over the tasks of an empty [ASSIGNMENT_TASKS] is one
    evaluation of the task [""], which begins by printing its line and
    calling the loader for [task.yml]; a run of [_main] that gets to the
    loop does this right after the override of the assignment. In the same
    way the loop over the metrics of an empty metric list is one run of
    the metric [""]: its line is printed and, with [D2G_PATH] set, the
    command found for the empty name is started. *)
Theorem empty_list_is_one_empty_entry :
  str_split_space "" = [""] ∧
  (∀ acl s,
     for_each (str_split_space "") (λ task, _evaluate_task task acl) s
     = _evaluate_task "" acl s) ∧
  (∀ acl s,
     ∃ res rest,
       trace (_evaluate_task "" acl s).2
       = trace s ++
         EPrint "Loading task configuration for task " ::
         ELoad "task.yml" (Some (str_upper "")) res :: rest) ∧
  (∀ s ac due_date repository s2 s3,
     load_yaml ASSIGNMENT_FILE_NAME None (world s) = inl ac →
     ac !! "ASSIGNMENT_DUE_DATE" = Some due_date →
     ac !! "ASSIGNMENT_TEMPLATE_REPOSITORY" = Some repository →
     ac !! "ASSIGNMENT_TASKS" = Some "" →
     _checkout_due_date due_date (alloc ac (emits (load_assignment_steps ac) s))
     = (Done tt, s2) →
     _override_repo None repository None s2 = (Done tt, s3) →
     ∃ res rest,
       trace (_main s).2
       = trace s3 ++
         EPrint "Loading task configuration for task " ::
         ELoad "task.yml" (Some (str_upper "")) res :: rest) ∧
  (∀ taskname s,
     _execute_metrics taskname "" s = _execute_metric taskname "" s) ∧
  (∀ taskname d2g s,
     environ s !! "D2G_PATH" = Some d2g →
     let base := os_path_join d2g "scripts/metrics/" in
     ∃ probes argv res rest,
       trace (_execute_metrics taskname "" s).2
       = trace s ++
         EPrint ("Executing metric  for task " +:+ taskname) ::
         probes ++ ERun argv (Some taskname) None res :: rest ∧
       Forall (λ e, ∃ path b, e = EExists path b) probes ∧
       (argv = [base +:+ ".sh"] ∨ argv = [base +:+ ".py"] ∨
        argv = ["./gradlew"; ""])).
Proof.
  split_and!.
  - reflexivity.
  - intros acl s.
    exact (for_each_singleton "" (λ task, _evaluate_task task acl) s).
  - intros acl s. apply _evaluate_task_begins.
  - intros s ac due_date repository s2 s3 Hload Hdue Hrepo Htasks Hcheckout Hoverride.
    pose proof (alloc_lookup s ac (load_assignment_steps ac)) as Hac1.
    pose proof Hcheckout as Hc. apply _checkout_due_date_Done in Hc
      as (d2g & _ & Hran2).
    pose proof (ran_heap _ _ _ _ _ Hran2 Hac1) as Hac2.
    pose proof Hoverride as Hover. apply _override_repo_Done in Hover
      as (d2g' & env & _ & _ & Hran3).
    pose proof (ran_heap _ _ _ _ _ Hran3 Hac2) as Hac3.
    unfold _main.
    rewrite (bind_Done _ _ _ _ _ (_load_assignment_config_found _ _ Hload)).
    rewrite (bind_Done _ _ _ _ _ (getitem_found _ _ _ _ _ Hac1 Hdue)).
    rewrite (bind_Done _ _ _ _ _ Hcheckout).
    rewrite (bind_Done _ _ _ _ _ (getitem_found _ _ _ _ _ Hac2 Hrepo)).
    rewrite (bind_Done _ _ _ _ _ Hoverride).
    rewrite (bind_Done _ _ _ _ _ (getitem_found _ _ _ _ _ Hac3 Htasks)).
    match goal with
    | |- context [bind ?m ?k s3] =>
        destruct (bind_extends reverted m k s3) as (d & ->)
    end.
    { intros _. apply _main_obeys_tail. }
    change (str_split_space "") with [""].
    rewrite (for_each_singleton ""
               (λ task, _evaluate_task task (length (heap s))) s3).
    destruct (_evaluate_task_begins "" (length (heap s)) s3)
      as (res & rest & ->).
    exists res, (rest ++ d). by rewrite <- app_assoc.
  - intros taskname s.
    exact (for_each_singleton "" (_execute_metric taskname) s).
  - intros taskname d2g s Hd2g base.
    unfold _execute_metrics. change (str_split_space "") with [""].
    rewrite (for_each_singleton "" (_execute_metric taskname) s).
    exact (_execute_metric_begins taskname "" d2g s Hd2g).
Qed.


(** ** Further properties of the script *)

(** *** Lists written with spaces *)

(** X1. [split(" ")] cuts at every space and loses nothing: joining the
    fields with spaces gives the string back, the fields hold no space,
    and there is one more field than there are spaces, so that a leading,
    a trailing or a doubled space in [ASSIGNMENT_TASKS] or in a metric
    list gives an empty name. Conversely the fields of a list written
    with single spaces are its entries. *)
Theorem split_space_round_trip :
  (∀ s, str_join_space (str_split_space s) = s) ∧
  (∀ s, length (str_split_space s) = S (count_spaces s)) ∧
  (∀ s, Forall (λ field, count_spaces field = 0%nat) (str_split_space s)) ∧
  (∀ fields,
     fields ≠ [] →
     Forall (λ field, count_spaces field = 0%nat) fields →
     str_split_space (str_join_space fields) = fields).
Proof.
  split_and!.
  - apply str_join_split.
  - apply str_split_space_length.
  - apply str_split_space_fields.
  - apply str_split_join.
Qed.

(** *** The loop over the metrics *)

(** X2. The metrics of a list are run in the order they are written,
    each to its end before the next: the loop over [metric rest] is the
    run of [metric] followed by the loop over [rest], and a metric that
    does not complete (its process failed or could not be started) ends
    the loop with its own outcome: the metrics after it are not run. *)
Theorem metrics_run_in_order taskname metric rest s :
  count_spaces metric = 0%nat →
  _execute_metrics taskname metric s = _execute_metric taskname metric s ∧
  _execute_metrics taskname (metric +:+ " " +:+ rest) s
  = (_execute_metric taskname metric ;; _execute_metrics taskname rest) s ∧
  (∀ o s',
     _execute_metric taskname metric s = (o, s') →
     o ≠ Done tt →
     _execute_metrics taskname (metric +:+ " " +:+ rest) s = (o, s')).
Proof.
  intros Hmetric. unfold _execute_metrics.
  rewrite (str_split_space_word metric rest Hmetric).
  assert (str_split_space metric = [metric]) as ->.
  { apply (str_split_join [metric]); [done|by repeat constructor]. }
  split_and!.
  - apply for_each_singleton.
  - reflexivity.
  - intros o s' Hrun Ho. apply for_each_stops; [done|]. by intros [].
Qed.

(** *** The override of the repository *)

Lemma deref_found l (s : state W) d :
  heap s !! l = Some d → deref l s = (Done d, s).
Proof. intros Hl. unfold deref. by rewrite Hl. Qed.

(** Steps forward over a read of [os.environ] or of the heap whose
    result is known. *)
Ltac forward_environ H :=
  match goal with
  | |- context [bind (os_environ_get ?key) ?k ?s0] =>
      rewrite (bind_Done (os_environ_get key) k s0 _ s0
                 (os_environ_get_found key s0 _ H))
  end.

Ltac forward_deref H :=
  match goal with
  | |- context [bind (deref ?l) ?k ?s0] =>
      rewrite (bind_Done (deref l) k s0 _ s0 (deref_found l s0 _ H))
  end.

(** X3. [_override_repo] tells a task from the assignment by the truth
    value of the task name. For a task with a non-empty name it starts
    [override_repo.py -t <task> -r <repository>] in the directory of the
    task, and the environment of that process is the task configuration
    alone, not [os.environ] with it. For [None], and for the empty task
    name as well, it starts [override_repo.py -a -r <repository>] in the
    current directory with the inherited environment, and does not look
    at the task configuration. *)
Theorem override_repo_routing repository tcl tc d2g s :
  environ s !! "D2G_PATH" = Some d2g →
  heap s !! tcl = Some tc →
  let script := os_path_join d2g "scripts/override_repo.py" in
  (∀ taskname,
     taskname ≠ "" →
     ∃ res rest,
       trace (_override_repo (Some taskname) repository (Some tcl) s).2
       = trace s ++
         EPrint ("Overriding repository for task " +:+ taskname) ::
         ERun [script; "-t"; taskname; "-r"; repository]
           (Some taskname) (Some tc) res :: rest) ∧
  (∀ taskname conf,
     taskname = None ∨ taskname = Some "" →
     ∃ res rest,
       trace (_override_repo taskname repository conf s).2
       = trace s ++
         EPrint ("Overriding repository for task " +:+ pystr taskname) ::
         ERun [script; "-a"; "-r"; repository] None None res :: rest).
Proof.
  intros Hd2g Htc script. split.
  - intros taskname Hname.
    assert (truthy (Some taskname) = true) as Htruthy.
    { simpl. by destruct (String.eqb_spec taskname ""). }
    unfold _override_repo.
    rewrite (bind_Done _ _ _ _ _ (print_run _ s)).
    forward_environ Hd2g.
    rewrite Htruthy. fold script. rewrite !bind_assoc.
    forward_deref Htc.
    unfold ret at 1. rewrite (bind_Done _ _ _ (Some tc) _ eq_refl).
    match goal with
    | |- context [bind (subprocess_run ?argv ?cwd ?env) ?k ?s0] =>
        destruct (checked_run_begins argv cwd env
                    "Failed to execute override_repo.py" s0)
          as (res & rest & ->)
    end.
    exists res, rest. simpl. by rewrite <- app_assoc.
  - intros taskname conf Hname.
    assert (truthy taskname = false) as Htruthy by (by destruct Hname as [->| ->]).
    unfold _override_repo.
    rewrite (bind_Done _ _ _ _ _ (print_run _ s)).
    forward_environ Hd2g.
    rewrite Htruthy. fold script.
    match goal with
    | |- context [bind (subprocess_run ?argv ?cwd ?env) ?k ?s0] =>
        destruct (checked_run_begins argv cwd env
                    "Failed to execute override_repo.py" s0)
          as (res & rest & ->)
    end.
    exists res, rest. simpl. by rewrite <- app_assoc.
Qed.

(** *** Without [D2G_PATH] *)

(** X4. When [D2G_PATH] is not set the script starts no process at all:
    whatever the run, its events are printed lines and the load of
    [assignment.yml]. With a loaded assignment that has a due date it
    ends in the checkout step, after the line of that step, with an
    uncaught [KeyError] for [D2G_PATH] (status 1): the usage lines, which
    name the variable, are not printed. *)
Theorem no_process_without_D2G_PATH s o s' :
  environ s !! "D2G_PATH" = None →
  _main s = (o, s') →
  (∃ d, trace s' = trace s ++ d ∧
        Forall (λ e, match e with
                     | EPrint _ => True
                     | ELoad path prefix _ =>
                         path = ASSIGNMENT_FILE_NAME ∧ prefix = None
                     | _ => False
                     end) d) ∧
  (∀ u, o ≠ Done u) ∧
  (∀ ac due_date,
     load_yaml ASSIGNMENT_FILE_NAME None (world s) = inl ac →
     ac !! "ASSIGNMENT_DUE_DATE" = Some due_date →
     o = Raise (KeyError "D2G_PATH") ∧ exit_status o = 1 ∧
     trace s' = trace s ++ load_assignment_steps ac ++
                [EPrint "Checking out due date"]).
Proof.
  intros Hd2g Hrun.
  destruct (load_yaml ASSIGNMENT_FILE_NAME None (world s)) as [ac|x] eqn:Hload.
  - pose proof (alloc_lookup s ac (load_assignment_steps ac)) as Hac1.
    unfold _main in Hrun.
    rewrite (bind_Done _ _ _ _ _ (_load_assignment_config_found _ _ Hload))
      in Hrun.
    destruct (ac !! "ASSIGNMENT_DUE_DATE") as [due_date|] eqn:Hdue.
    + rewrite (bind_Done _ _ _ _ _ (getitem_found _ _ _ _ _ Hac1 Hdue)) in Hrun.
      unfold _checkout_due_date in Hrun. rewrite bind_assoc in Hrun.
      rewrite (bind_Done _ _ _ _ _ (print_run _ _)) in Hrun.
      rewrite bind_assoc in Hrun.
      assert (os_environ_get "D2G_PATH"
                (emit (EPrint "Checking out due date")
                   (alloc ac (emits (load_assignment_steps ac) s)))
              = (Raise (KeyError "D2G_PATH"),
                 emit (EPrint "Checking out due date")
                   (alloc ac (emits (load_assignment_steps ac) s)))) as Hget.
      { unfold os_environ_get. simpl. by rewrite Hd2g. }
      rewrite (bind_Raise _ _ _ _ _ Hget) in Hrun. simplify_eq.
      split_and!.
      * eexists. split; [simpl; by rewrite <- app_assoc|].
        by repeat constructor.
      * done.
      * intros ac' due' [= <-] _. split_and!; [done..|].
        simpl. by rewrite <- app_assoc.
    + rewrite (bind_Raise _ _ _ _ _ (getitem_missing _ _ _ _ Hac1 Hdue)) in Hrun.
      simplify_eq. split_and!.
      * eexists. split; [done|]. by repeat constructor.
      * done.
      * intros ac' due' [= <-] Hdue'. congruence.
  - assert (_load_assignment_config s
            = (if caught x then Exit (-1) else Raise x,
               if caught x
               then emits (abort_lines ("Failed to load " +:+ ASSIGNMENT_FILE_NAME))
                      (emits [EPrint "Loading assignment configuration";
                              ELoad ASSIGNMENT_FILE_NAME None (inr x)] s)
               else emits [EPrint "Loading assignment configuration";
                           ELoad ASSIGNMENT_FILE_NAME None (inr x)] s))
      as Hconf.
    { unfold _load_assignment_config, bind, print, try_except,
        conf_loader_load_yaml.
      simpl. rewrite Hload. destruct (caught x).
      - rewrite _print_error_and_exit_run. unfold emits, emit. simpl.
        by rewrite <- !app_assoc.
      - unfold emits, emit. simpl. by rewrite <- !app_assoc. }
    unfold _main in Hrun. destruct (caught x).
    + rewrite (bind_Exit _ _ _ _ _ Hconf) in Hrun. simplify_eq. split_and!.
      * eexists. split; [simpl; by rewrite <- app_assoc|].
        by repeat constructor.
      * done.
      * done.
    + rewrite (bind_Raise _ _ _ _ _ Hconf) in Hrun. simplify_eq. split_and!.
      * eexists. split; [done|]. by repeat constructor.
      * done.
      * done.
Qed.

(** *** Exceptions of the collaborators *)

(** X5. The script handles two exceptions of the loader and none of
    [subprocess.run]: when a program cannot be started, or the loader
    raises anything but [FileNotFoundError] and [YAMLError], that call is
    the last event of the run, the exception leaves [_main] uncaught
    (status 1), and neither a message nor the usage lines are printed.
    This holds for the revert of the checkout too. *)
Theorem collaborator_exception_ends_run s o s' pre e post x :
  _main s = (o, s') →
  trace s' = trace s ++ pre ++ e :: post →
  raising_event x e →
  o = Raise x ∧ exit_status o = 1 ∧ post = [].
Proof.
  intros Hrun Htrace Hraise.
  assert (ok_event e = false) as Hbad.
  { destruct e as [|? ? [|y]| |? ? ? [|y]]; try done. }
  destruct (main_not_ok_event _ _ _ _ _ _ Hrun Htrace Hbad) as [_ Ho].
  destruct o as [[]|code|y].
  - destruct Ho as (_ & d2g & rc & _ & ->). done.
  - destruct Ho as (_ & Hfailed & _).
    destruct e as [|? ? [|z]| |? ? ? [|z]]; simpl in *; try done.
    destruct Hraise as [_ Hz]. by rewrite Hz in Hfailed.
  - destruct Ho as [-> Hy]. split_and!; [|done..]. f_equal.
    destruct e as [|? ? [|z]| |? ? ? [|z]]; simpl in *; try done.
    + destruct Hraise as [<- _]. by destruct Hy as [<- _].
    + congruence.
Qed.

(** *** Why a run stops *)

Lemma stopped_prepend {A} d2g (o : outcome A) g d :
  stopped d2g o d → stopped d2g o (g ++ d).
Proof.
  intros [good bad msg Hbad|x good e He|x d' Hx]; rewrite ?app_assoc.
  - by apply stopped_exit.
  - by apply stopped_raise_at.
  - by apply stopped_raise.
Qed.

Lemma halts_after {A} d2g s s1 (o : outcome A) s' d1 :
  trace s1 = trace s ++ d1 → halts d2g s1 o s' → halts d2g s o s'.
Proof.
  intros H1 (d & Hd & Hstopped). exists (d1 ++ d).
  split; [by rewrite Hd, H1, app_assoc|by apply stopped_prepend].
Qed.

Lemma halts_ran {A} d2g s s1 (o : outcome A) s' d1 :
  ran s s1 d1 → halts d2g s1 o s' → halts d2g s o s'.
Proof. intros (_ & _ & H1). by apply halts_after with d1. Qed.

Lemma bind_halts {A B} d2g (m : Cmd A) (k : A → Cmd B) s o s' :
  bind m k s = (o, s') →
  (∀ u, o ≠ Done u) →
  (∀ o1 s1, m s = (o1, s1) → (∀ u, o1 ≠ Done u) → halts d2g s o1 s1) →
  (∀ a s1, m s = (Done a, s1) → k a s1 = (o, s') → halts d2g s o s') →
  halts d2g s o s'.
Proof.
  intros Hrun Ho Hm Hk. unfold bind in Hrun.
  destruct (m s) as [[a|c|x] s1] eqn:Hms.
  - by apply (Hk a s1).
  - simplify_eq. destruct (Hm (Exit c) s') as (d & Hd & Hstopped); [done..|].
    exists d. split; [done|]. inversion Hstopped; subst. by apply stopped_exit.
  - simplify_eq. destruct (Hm (Raise x) s') as (d & Hd & Hstopped); [done..|].
    exists d. split; [done|].
    inversion Hstopped; subst;
      [by apply stopped_raise_at|by apply stopped_raise].
Qed.

Lemma print_bind_halts {B} d2g line (k : unit → Cmd B) s o s' :
  bind (print line) k s = (o, s') →
  (k tt (emit (EPrint line) s) = (o, s') →
   halts d2g (emit (EPrint line) s) o s') →
  halts d2g s o s'.
Proof.
  intros Hrun Hk. rewrite (bind_Done _ _ _ _ _ (print_run line s)) in Hrun.
  apply (halts_after d2g s (emit (EPrint line) s) o s' [EPrint line]);
    [done|by apply Hk].
Qed.

Lemma environ_bind_halts {B} d2g key (k : string → Cmd B) v s o s' :
  environ s !! key = Some v →
  bind (os_environ_get key) k s = (o, s') →
  (k v s = (o, s') → halts d2g s o s') →
  halts d2g s o s'.
Proof.
  intros Hkey Hrun Hk.
  rewrite (bind_Done _ _ _ _ _ (os_environ_get_found key s v Hkey)) in Hrun.
  by apply Hk.
Qed.

Lemma script_raise_halts {A} d2g s x :
  script_exception x → halts d2g s (@Raise A x) s.
Proof.
  intros Hx. exists []. rewrite app_nil_r. split; [done|by apply stopped_raise].
Qed.

Lemma getitem_bind_halts {B} d2g l key (k : string → Cmd B) conf s o s' :
  heap s !! l = Some conf →
  bind (getitem l key) k s = (o, s') →
  (∀ v, conf !! key = Some v → k v s = (o, s') → halts d2g s o s') →
  halts d2g s o s'.
Proof.
  intros Hl Hrun Hk. destruct (conf !! key) as [v|] eqn:Hkey.
  - rewrite (bind_Done _ _ _ _ _ (getitem_found _ _ _ _ _ Hl Hkey)) in Hrun.
    by apply (Hk v).
  - rewrite (bind_Raise _ _ _ _ _ (getitem_missing _ _ _ _ Hl Hkey)) in Hrun.
    simplify_eq. apply script_raise_halts. left. by exists key.
Qed.

(** A tested process that does not go well: it returned non-zero, or it
    could not be started. *)
Lemma checked_run_stops argv cwd env msg s o s' :
  (returncode <- subprocess_run argv cwd env ;;
   if decide (returncode ≠ 0) then _print_error_and_exit msg else ret tt) s
  = (o, s') →
  (∀ u, o ≠ Done u) →
  (∃ rc, rc ≠ 0 ∧ o = Exit (-1) ∧
         trace s' = trace s ++ ERun argv cwd env (inl rc) :: abort_lines msg) ∨
  (∃ x, o = Raise x ∧ trace s' = trace s ++ [ERun argv cwd env (inr x)]).
Proof.
  unfold bind, subprocess_run.
  destruct (spawn argv cwd env (world s)) as [[rc|x] w]; simpl.
  - case_decide as Hrc.
    + rewrite _print_error_and_exit_run. intros ? _. simplify_eq.
      left. exists rc. split_and!; [done..|]. simpl. by rewrite <- app_assoc.
    + unfold ret. intros ? Ho. simplify_eq. by destruct (Ho tt).
  - intros ? _. simplify_eq. right. by exists x.
Qed.

(** The same, when the failure is one of the steps of the script. *)
Lemma checked_run_halts d2g argv cwd env msg s o s' :
  (∀ rc, rc ≠ 0 → step_failure d2g (ERun argv cwd env (inl rc)) msg) →
  (returncode <- subprocess_run argv cwd env ;;
   if decide (returncode ≠ 0) then _print_error_and_exit msg else ret tt) s
  = (o, s') →
  (∀ u, o ≠ Done u) →
  halts d2g s o s'.
Proof.
  intros Hstep Hrun Ho.
  destruct (checked_run_stops _ _ _ _ _ _ _ Hrun Ho)
    as [(rc & Hrc & -> & Htrace)|(x & -> & Htrace)].
  - eexists. split; [exact Htrace|]. apply (stopped_exit _ []). by apply Hstep.
  - eexists. split; [exact Htrace|]. by apply (stopped_raise_at _ _ []).
Qed.

Lemma checked_load_halts d2g path prefix s o s' :
  try_except (conf_loader_load_yaml path prefix)
    (λ _, _print_error_and_exit ("Failed to load " +:+ path)) s = (o, s') →
  (∀ u, o ≠ Done u) →
  halts d2g s o s'.
Proof.
  unfold try_except, conf_loader_load_yaml.
  destruct (load_yaml path prefix (world s)) as [conf|x].
  - intros ? Ho. simplify_eq. by destruct (Ho (length (heap s))).
  - destruct (caught x) eqn:Hx.
    + rewrite _print_error_and_exit_run. intros ? _. simplify_eq.
      eexists. split; [simpl; by rewrite <- app_assoc|].
      apply (stopped_exit _ []). by apply failure_load.
    + intros ? _. simplify_eq. eexists. split; [done|].
      by apply (stopped_raise_at _ _ []).
Qed.

(** Steps over the line and the read of [D2G_PATH] a step begins
    with. *)
Ltac halts_print Hrun :=
  apply (print_bind_halts _ _ _ _ _ _ Hrun); clear Hrun; intros Hrun.

Ltac halts_environ Hrun Hd2g :=
  match type of Hrun with
  | bind (os_environ_get ?key) ?k ?s0 = _ =>
      apply (environ_bind_halts _ key k _ s0 _ _ Hd2g Hrun);
      clear Hrun; intros Hrun
  end.

Lemma _load_assignment_config_halts d2g s o s' :
  _load_assignment_config s = (o, s') → (∀ u, o ≠ Done u) → halts d2g s o s'.
Proof.
  unfold _load_assignment_config. intros Hrun Ho.
  apply (print_bind_halts _ _ _ _ _ _ Hrun). intros Hload.
  by apply (checked_load_halts _ _ _ _ _ _ Hload).
Qed.

Lemma _load_task_config_halts d2g taskname s o s' :
  _load_task_config taskname s = (o, s') → (∀ u, o ≠ Done u) →
  halts d2g s o s'.
Proof.
  unfold _load_task_config. intros Hrun Ho.
  apply (print_bind_halts _ _ _ _ _ _ Hrun). intros Hload.
  by apply (checked_load_halts _ _ _ _ _ _ Hload).
Qed.

Lemma _checkout_due_date_halts d2g due_date s o s' :
  environ s !! "D2G_PATH" = Some d2g →
  _checkout_due_date due_date s = (o, s') → (∀ u, o ≠ Done u) →
  halts d2g s o s'.
Proof.
  unfold _checkout_due_date. intros Hd2g Hrun Ho.
  halts_print Hrun. halts_environ Hrun Hd2g.
  apply (checked_run_halts _ _ _ _ _ _ _ _ (failure_checkout d2g due_date)
           Hrun Ho).
Qed.

Lemma _override_repo_halts d2g taskname repository conf s o s' :
  environ s !! "D2G_PATH" = Some d2g →
  match conf with Some l => is_Some (heap s !! l) | None => True end →
  _override_repo taskname repository conf s = (o, s') → (∀ u, o ≠ Done u) →
  halts d2g s o s'.
Proof.
  unfold _override_repo. intros Hd2g Hconf Hrun Ho.
  halts_print Hrun. halts_environ Hrun Hd2g.
  destruct (truthy taskname) eqn:Htruthy.
  - destruct taskname as [taskname|]; [|done]. simpl in Hrun.
    rewrite bind_assoc in Hrun.
    assert (∃ env, (match conf with
                    | Some l => d <- deref l ;; ret (Some d)
                    | None => ret None
                    end)
                     (emit (EPrint ("Overriding repository for task " +:+ taskname)) s)
                   = (Done env,
                      emit (EPrint ("Overriding repository for task " +:+ taskname)) s))
      as (env & Henv).
    { destruct conf as [l|]; [|by exists None].
      destruct Hconf as (d & Hl). exists (Some d).
      unfold bind, deref, ret. simpl. by rewrite Hl. }
    rewrite (bind_Done _ _ _ _ _ Henv) in Hrun.
    apply (checked_run_halts _ _ _ _ _ _ _ _
             (failure_override_task d2g taskname repository env) Hrun Ho).
  - apply (checked_run_halts _ _ _ _ _ _ _ _
             (failure_override_assignment d2g repository) Hrun Ho).
Qed.

Lemma _execute_metric_halts d2g taskname metric s o s' :
  environ s !! "D2G_PATH" = Some d2g →
  _execute_metric taskname metric s = (o, s') → (∀ u, o ≠ Done u) →
  halts d2g s o s'.
Proof.
  unfold _execute_metric. intros Hd2g Hrun Ho. halts_print Hrun.
  pose proof (_get_metric_script_path_run metric d2g
                (emit (EPrint ("Executing metric " +:+ metric +:+ " for task "
                               +:+ taskname)) s) Hd2g) as Hpath.
  simpl in Hpath. rewrite (bind_Done _ _ _ _ _ Hpath) in Hrun.
  match type of Hrun with
  | bind _ _ (emits ?probes ?s0) = _ =>
      apply (halts_after d2g s0 (emits probes s0) o s' probes eq_refl)
  end.
  refine (checked_run_halts _ _ _ _ _ _ _ _ _ Hrun Ho).
  intros rc Hrc. apply failure_metric; [done|]. unfold metric_base.
  destruct (path_exists _ _); [by left|].
  destruct (path_exists _ _); [by right; left|by right; right].
Qed.

Lemma for_each_halts {A} d2g (Inv : state W → Prop) (xs : list A)
    (body : A → Cmd unit) s o s' :
  (∀ x s1 s2 v, Inv s1 → body x s1 = (Done v, s2) →
                ∃ d, ran s1 s2 d ∧ Inv s2) →
  (∀ x s1 o1 s2, Inv s1 → body x s1 = (o1, s2) → (∀ u, o1 ≠ Done u) →
                 halts d2g s1 o1 s2) →
  Inv s →
  for_each xs body s = (o, s') → (∀ u, o ≠ Done u) →
  halts d2g s o s'.
Proof.
  intros Hdone Hhalts. revert s.
  induction xs as [|x xs IH]; intros s HInv Hrun Ho.
  - unfold for_each, ret in Hrun. simplify_eq. by destruct (Ho tt).
  - simpl in Hrun. apply (bind_halts _ _ _ _ _ _ Hrun Ho).
    + intros o1 s1 Hx Ho1. by apply (Hhalts x s).
    + intros v s1 Hx Hrest.
      destruct (Hdone _ _ _ _ HInv Hx) as (d & Hran & HInv1).
      apply (halts_ran _ _ _ _ _ _ Hran). by apply IH.
Qed.

Lemma _execute_metrics_halts d2g taskname metrics s o s' :
  environ s !! "D2G_PATH" = Some d2g →
  _execute_metrics taskname metrics s = (o, s') → (∀ u, o ≠ Done u) →
  halts d2g s o s'.
Proof.
  intros Hd2g Hrun Ho. unfold _execute_metrics in Hrun.
  refine (for_each_halts d2g (λ s1, environ s1 !! "D2G_PATH" = Some d2g)
            _ _ _ _ _ _ _ _ Hrun Ho); [| |done].
  - intros metric s1 s2 v Hd2g1 Hmetric.
    apply _execute_metric_Done in Hmetric as (d2g' & d & _ & _ & Hran).
    exists d. split; [done|]. by rewrite (proj1 Hran).
  - intros metric s1 o1 s2 Hd2g1 Hmetric Ho1.
    by apply (_execute_metric_halts _ taskname metric).
Qed.

Lemma _evaluate_metrics_halts d2g taskname metrics tcl acl s o s' :
  environ s !! "D2G_PATH" = Some d2g →
  is_Some (heap s !! tcl) → is_Some (heap s !! acl) →
  _evaluate_metrics taskname metrics tcl acl s = (o, s') → (∀ u, o ≠ Done u) →
  halts d2g s o s'.
Proof.
  unfold _evaluate_metrics. intros Hd2g [tc Htc] [ac Hac] Hrun Ho.
  halts_print Hrun. halts_environ Hrun Hd2g.
  assert (∀ s0 : state W,
            heap s0 = heap s →
            dict_environ2 tcl acl s0 = (Done (ac ∪ tc ∪ environ s0), s0) ∨
            dict_environ2 tcl acl s0
            = (Raise (TypeError "dict() got multiple values for keyword argument"),
               s0)) as Hdict.
  { intros s0 Hs0. unfold dict_environ2, bind, deref, raise.
    rewrite Hs0, Htc. simpl. rewrite Hs0, Hac. simpl.
    case_decide; [by left|by right]. }
  match type of Hrun with
  | bind _ _ ?s0 = _ => destruct (Hdict s0 eq_refl) as [Henv|Henv]
  end.
  - rewrite (bind_Done _ _ _ _ _ Henv) in Hrun.
    apply (checked_run_halts _ _ _ _ _ _ _ _
             (failure_evaluate d2g taskname _) Hrun Ho).
  - rewrite (bind_Raise _ _ _ _ _ Henv) in Hrun. simplify_eq.
    apply script_raise_halts. by right.
Qed.

Lemma _evaluate_task_halts d2g taskname acl ac s o s' :
  environ s !! "D2G_PATH" = Some d2g →
  heap s !! acl = Some ac →
  _evaluate_task taskname acl s = (o, s') → (∀ u, o ≠ Done u) →
  halts d2g s o s'.
Proof.
  unfold _evaluate_task. intros Hd2g Hac Hrun Ho.
  apply (bind_halts _ _ _ _ _ _ Hrun Ho).
  { intros o1 s1. apply _load_task_config_halts. }
  clear Hrun. intros tcl s1 Hload Hrun.
  apply _load_task_config_Done in Hload as (tc & _ & Htc & Hran1).
  pose proof (ran_heap _ _ _ _ _ Hran1 Hac) as Hac1.
  assert (environ s1 !! "D2G_PATH" = Some d2g) as Hd2g1
    by (by rewrite (proj1 Hran1)).
  apply (halts_ran _ _ _ _ _ _ Hran1).
  apply (getitem_bind_halts _ _ _ _ _ _ _ _ Hac1 Hrun).
  clear Hrun. intros repository Hrepo Hrun.
  apply (bind_halts _ _ _ _ _ _ Hrun Ho).
  { intros o1 s2. by apply _override_repo_halts. }
  clear Hrun. intros ? s2 Hover Hrun.
  apply _override_repo_Done in Hover as (d2g' & env & _ & _ & Hran2).
  pose proof (ran_heap _ _ _ _ _ Hran2 Hac1) as Hac2.
  pose proof (ran_heap _ _ _ _ _ Hran2 Htc) as Htc2.
  assert (environ s2 !! "D2G_PATH" = Some d2g) as Hd2g2
    by (by rewrite (proj1 Hran2)).
  apply (halts_ran _ _ _ _ _ _ Hran2).
  apply (getitem_bind_halts _ _ _ _ _ _ _ _ Htc2 Hrun).
  clear Hrun. intros metrics Hmetrics Hrun.
  apply (bind_halts _ _ _ _ _ _ Hrun Ho).
  { intros o1 s3. by apply _execute_metrics_halts. }
  clear Hrun. intros ? s3 Hexec Hrun.
  apply (_execute_metrics_Done _ _ d2g) in Hexec as (ms & _ & Hran3); [|done].
  pose proof (ran_heap _ _ _ _ _ Hran3 Hac2) as Hac3.
  pose proof (ran_heap _ _ _ _ _ Hran3 Htc2) as Htc3.
  assert (environ s3 !! "D2G_PATH" = Some d2g) as Hd2g3
    by (by rewrite (proj1 Hran3)).
  apply (halts_ran _ _ _ _ _ _ Hran3).
  apply (getitem_bind_halts _ _ _ _ _ _ _ _ Htc3 Hrun).
  clear Hrun. intros metrics' _ Hrun.
  by apply (_evaluate_metrics_halts _ taskname metrics' tcl acl).
Qed.

Lemma _create_artifact_halts d2g acl ac s o s' :
  environ s !! "D2G_PATH" = Some d2g →
  heap s !! acl = Some ac →
  _create_artifact acl s = (o, s') → (∀ u, o ≠ Done u) →
  halts d2g s o s'.
Proof.
  unfold _create_artifact. intros Hd2g Hac Hrun Ho.
  halts_print Hrun. halts_environ Hrun Hd2g.
  assert (∀ s0 : state W, heap s0 = heap s →
            dict_environ1 acl s0 = (Done (ac ∪ environ s0), s0)) as Hdict.
  { intros s0 Hs0. unfold dict_environ1, bind, deref. by rewrite Hs0, Hac. }
  match type of Hrun with
  | bind _ _ ?s0 = _ =>
      rewrite (bind_Done _ _ _ _ _ (Hdict s0 eq_refl)) in Hrun
  end.
  apply (checked_run_halts _ _ _ _ _ _ _ _ (failure_artifact d2g _) Hrun Ho).
Qed.

Lemma _present_results_halts d2g acl ac s o s' :
  environ s !! "D2G_PATH" = Some d2g →
  heap s !! acl = Some ac →
  _present_results acl s = (o, s') → (∀ u, o ≠ Done u) →
  halts d2g s o s'.
Proof.
  unfold _present_results. intros Hd2g Hac Hrun Ho.
  apply (bind_halts _ _ _ _ _ _ Hrun Ho).
  { intros o1 s1. by apply (_create_artifact_halts _ acl ac). }
  clear Hrun. intros ? s1 Hart Hrun.
  apply (_create_artifact_Done _ ac) in Hart as (d2g' & _ & Hran1); [|done].
  pose proof (ran_heap _ _ _ _ _ Hran1 Hac) as Hac1.
  assert (environ s1 !! "D2G_PATH" = Some d2g) as Hd2g1
    by (by rewrite (proj1 Hran1)).
  apply (halts_ran _ _ _ _ _ _ Hran1).
  halts_environ Hrun Hd2g1.
  assert (dict_environ1 acl s1 = (Done (ac ∪ environ s1), s1)) as Hdict.
  { unfold dict_environ1, bind, deref. by rewrite Hac1. }
  rewrite (bind_Done _ _ _ _ _ Hdict) in Hrun.
  apply (checked_run_halts _ _ _ _ _ _ _ _ (failure_print d2g _) Hrun Ho).
Qed.

Lemma _revert_checkout_halts d2g s o s' :
  environ s !! "D2G_PATH" = Some d2g →
  _revert_checkout s = (o, s') → (∀ u, o ≠ Done u) →
  halts d2g s o s'.
Proof.
  unfold _revert_checkout. intros Hd2g Hrun Ho.
  halts_environ Hrun Hd2g. unfold bind, subprocess_run, ret in Hrun.
  destruct (spawn _ None None (world s)) as [[rc|x] w]; simplify_eq.
  - by destruct (Ho tt).
  - eexists. split; [done|]. by apply (stopped_raise_at _ _ []).
Qed.

(** Why a run of the whole script stops. *)
Lemma _main_halts d2g s o s' :
  environ s !! "D2G_PATH" = Some d2g →
  _main s = (o, s') → (∀ u, o ≠ Done u) →
  halts d2g s o s'.
Proof.
  unfold _main. intros Hd2g Hrun Ho.
  apply (bind_halts _ _ _ _ _ _ Hrun Ho).
  { intros o1 s1. apply _load_assignment_config_halts. }
  clear Hrun. intros acl s1 Hload Hrun.
  apply _load_assignment_config_Done in Hload as (ac & _ & Hac1 & Hran1).
  assert (environ s1 !! "D2G_PATH" = Some d2g) as Hd2g1
    by (by rewrite (proj1 Hran1)).
  apply (halts_ran _ _ _ _ _ _ Hran1).
  apply (getitem_bind_halts _ _ _ _ _ _ _ _ Hac1 Hrun).
  clear Hrun. intros due_date Hdue Hrun.
  apply (bind_halts _ _ _ _ _ _ Hrun Ho).
  { intros o1 s2. by apply _checkout_due_date_halts. }
  clear Hrun. intros ? s2 Hcheckout Hrun.
  apply _checkout_due_date_Done in Hcheckout as (? & _ & Hran2).
  pose proof (ran_heap _ _ _ _ _ Hran2 Hac1) as Hac2.
  assert (environ s2 !! "D2G_PATH" = Some d2g) as Hd2g2
    by (by rewrite (proj1 Hran2)).
  apply (halts_ran _ _ _ _ _ _ Hran2).
  apply (getitem_bind_halts _ _ _ _ _ _ _ _ Hac2 Hrun).
  clear Hrun. intros repository Hrepo Hrun.
  apply (bind_halts _ _ _ _ _ _ Hrun Ho).
  { intros o1 s3. by apply _override_repo_halts. }
  clear Hrun. intros ? s3 Hover Hrun.
  apply _override_repo_Done in Hover as (? & env & _ & _ & Hran3).
  pose proof (ran_heap _ _ _ _ _ Hran3 Hac2) as Hac3.
  assert (environ s3 !! "D2G_PATH" = Some d2g) as Hd2g3
    by (by rewrite (proj1 Hran3)).
  apply (halts_ran _ _ _ _ _ _ Hran3).
  apply (getitem_bind_halts _ _ _ _ _ _ _ _ Hac3 Hrun).
  clear Hrun. intros tasks Htasks Hrun.
  apply (bind_halts _ _ _ _ _ _ Hrun Ho).
  { intros o1 s4 Hloop Ho1.
    refine (for_each_halts d2g
              (λ s0, environ s0 !! "D2G_PATH" = Some d2g ∧
                     heap s0 !! acl = Some ac)
              _ _ _ _ _ _ _ _ Hloop Ho1); [| |done].
    - intros task sa sb v [Hd2ga Haca] Htask.
      apply (_evaluate_task_Done _ _ ac d2g) in Htask as (d & _ & Hran);
        [|done..].
      exists d. split_and!; [done| |by eapply ran_heap].
      by rewrite (proj1 Hran).
    - intros task sa o2 sb [Hd2ga Haca] Htask Ho2.
      by apply (_evaluate_task_halts _ task acl ac). }
  clear Hrun. intros uloop s4 Hloop Hrun.
  destruct (for_each_Done (λ _ _, True)
              (λ s0, environ s0 !! "D2G_PATH" = Some d2g ∧
                     heap s0 !! acl = Some ac)
              (str_split_space tasks) (λ task, _evaluate_task task acl)
              s3 uloop s4)
    as (ts & _ & Hran4 & Hd2g4 & Hac4); [|done|done|].
  { intros task sa sb v [Hd2ga Haca] Htask.
    apply (_evaluate_task_Done _ _ ac d2g) in Htask as (d & _ & Hran);
      [|done..].
    exists d. split_and!; [done..| |by eapply ran_heap].
    by rewrite (proj1 Hran). }
  apply (halts_ran _ _ _ _ _ _ Hran4).
  apply (bind_halts _ _ _ _ _ _ Hrun Ho).
  { intros o1 s5. by apply (_present_results_halts _ acl ac). }
  clear Hrun. intros ? s5 Hpresent Hrun.
  apply (_present_results_Done _ ac) in Hpresent as (? & _ & Hran5);
    [|done].
  assert (environ s5 !! "D2G_PATH" = Some d2g) as Hd2g5
    by (by rewrite (proj1 Hran5)).
  apply (halts_ran _ _ _ _ _ _ Hran5).
  by apply _revert_checkout_halts.
Qed.

(** Without [D2G_PATH] the script can give up at one place only: the
    load of [assignment.yml]. *)
Lemma _main_gives_up_without_D2G_PATH s code s' :
  environ s !! "D2G_PATH" = None →
  _main s = (Exit code, s') →
  code = -1 ∧
  ∃ x, caught x = true ∧
       trace s' = trace s ++
                  [EPrint "Loading assignment configuration"] ++
                  ELoad ASSIGNMENT_FILE_NAME None (inr x) ::
                  abort_lines ("Failed to load " +:+ ASSIGNMENT_FILE_NAME).
Proof.
  intros Hd2g Hrun.
  destruct (load_yaml ASSIGNMENT_FILE_NAME None (world s)) as [ac|x] eqn:Hload.
  - pose proof (alloc_lookup s ac (load_assignment_steps ac)) as Hac1.
    unfold _main in Hrun.
    rewrite (bind_Done _ _ _ _ _ (_load_assignment_config_found _ _ Hload))
      in Hrun.
    destruct (ac !! "ASSIGNMENT_DUE_DATE") as [due_date|] eqn:Hdue.
    + rewrite (bind_Done _ _ _ _ _ (getitem_found _ _ _ _ _ Hac1 Hdue)) in Hrun.
      unfold _checkout_due_date in Hrun. rewrite bind_assoc in Hrun.
      rewrite (bind_Done _ _ _ _ _ (print_run _ _)) in Hrun.
      rewrite bind_assoc in Hrun.
      assert (os_environ_get "D2G_PATH"
                (emit (EPrint "Checking out due date")
                   (alloc ac (emits (load_assignment_steps ac) s)))
              = (Raise (KeyError "D2G_PATH"),
                 emit (EPrint "Checking out due date")
                   (alloc ac (emits (load_assignment_steps ac) s)))) as Hget.
      { unfold os_environ_get. simpl. by rewrite Hd2g. }
      by rewrite (bind_Raise _ _ _ _ _ Hget) in Hrun.
    + by rewrite (bind_Raise _ _ _ _ _ (getitem_missing _ _ _ _ Hac1 Hdue))
        in Hrun.
  - assert (_load_assignment_config s
            = (if caught x then Exit (-1) else Raise x,
               if caught x
               then emits (abort_lines ("Failed to load " +:+ ASSIGNMENT_FILE_NAME))
                      (emits [EPrint "Loading assignment configuration";
                              ELoad ASSIGNMENT_FILE_NAME None (inr x)] s)
               else emits [EPrint "Loading assignment configuration";
                           ELoad ASSIGNMENT_FILE_NAME None (inr x)] s))
      as Hconf.
    { unfold _load_assignment_config, bind, print, try_except,
        conf_loader_load_yaml.
      simpl. rewrite Hload. destruct (caught x).
      - rewrite _print_error_and_exit_run. unfold emits, emit. simpl.
        by rewrite <- !app_assoc.
      - unfold emits, emit. simpl. by rewrite <- !app_assoc. }
    unfold _main in Hrun. destruct (caught x) eqn:Hx.
    + rewrite (bind_Exit _ _ _ _ _ Hconf) in Hrun. simplify_eq.
      split; [done|]. exists x. split; [done|]. simpl.
      by rewrite <- !app_assoc.
    + by rewrite (bind_Raise _ _ _ _ _ Hconf) in Hrun.
Qed.

(** X6. Whenever the script gives up, with or without [D2G_PATH], the
    code is [-1], which the caller of the script sees as status 255, the
    usage lines are the last lines printed, and the line before them
    tells which step failed: [Failed to load <file>] for a configuration
    file, [Failed to evaluate checkout commit] for the checkout,
    [Failed to execute override_repo.py] for either override,
    [Failed to execute metric <metric>] for the command found for that
    metric, [Failed to execute evaluate_task.py],
    [Failed to execute create_artifact.sh] and
    [Failed to print student results] for the last three steps; the
    failed step is the event right before that line. Without [D2G_PATH]
    the failed step can only be the load of [assignment.yml]. *)
Theorem abort_message_names_failed_step s code s' :
  _main s = (Exit code, s') →
  code = -1 ∧
  exit_status (@Exit unit code) = 255 ∧
  ∃ good bad msg,
    trace s' = trace s ++ good ++ bad :: abort_lines msg ∧
    match environ s !! "D2G_PATH" with
    | Some d2g => step_failure d2g bad msg
    | None =>
        ∃ x, caught x = true ∧
             bad = ELoad "assignment.yml" None (inr x) ∧
             msg = "Failed to load assignment.yml"
    end.
Proof.
  intros Hrun. destruct (environ s !! "D2G_PATH") as [d2g|] eqn:Hd2g.
  - destruct (_main_halts d2g s (Exit code) s' Hd2g Hrun)
      as (d & Hd & Hstopped); [done|].
    inversion Hstopped as [good bad msg Hbad| |]; subst.
    split_and!; [done..|]. by exists good, bad, msg.
  - destruct (_main_gives_up_without_D2G_PATH s code s' Hd2g Hrun)
      as (-> & x & Hx & Htrace).
    split_and!; [done..|].
    exists [EPrint "Loading assignment configuration"],
      (ELoad "assignment.yml" None (inr x)), "Failed to load assignment.yml".
    split; [exact Htrace|]. by exists x.
Qed.

(** X8. The last two steps get [os.environ] under the assignment
    configuration, where a key of the assignment hides an environment
    variable of the same name. The results are printed only after the
    artifact was made: when [create_artifact.sh] returns non-zero the
    script gives up with its message and [print_results_student.py] is
    not started; when it returns 0 the printing is started next, in the
    world the artifact step left, with the same environment. *)
Theorem results_after_artifact acl ac d2g s res w :
  environ s !! "D2G_PATH" = Some d2g →
  heap s !! acl = Some ac →
  let env := ac ∪ environ s in
  let artifact := [os_path_join d2g "scripts/create_artifact.sh"] in
  let report := [os_path_join d2g "scripts/print_results_student.py"] in
  spawn artifact None (Some env) (world s) = (res, w) →
  (∀ key, env !! key = match ac !! key with
                       | Some v => Some v
                       | None => environ s !! key
                       end) ∧
  (∀ rc, res = inl rc → rc ≠ 0 →
     _present_results acl s
     = (Exit (-1),
        emits (abort_lines "Failed to execute create_artifact.sh")
          (set_world w
             (emits [EPrint "Creating artifact";
                     ERun artifact None (Some env) (inl rc)] s)))) ∧
  (res = inl 0 →
     ∃ res' rest,
       trace (_present_results acl s).2
       = trace s ++
         [EPrint "Creating artifact";
          ERun artifact None (Some env) (inl 0);
          ERun report None (Some env) res'] ++ rest ∧
       res' = (spawn report None (Some env) w).1).
Proof.
  intros Hd2g Hac env artifact report Hspawn.
  assert (∀ s0 : state W, heap s0 = heap s → environ s0 = environ s →
            dict_environ1 acl s0 = (Done env, s0)) as Hdict.
  { intros s0 Hh He. unfold dict_environ1, bind, deref.
    rewrite Hh, Hac. simpl. by rewrite He. }
  assert (_create_artifact acl s
          = match res with
            | inl rc =>
                if decide (rc ≠ 0)
                then (Exit (-1),
                      emits (abort_lines "Failed to execute create_artifact.sh")
                        (set_world w
                           (emits [EPrint "Creating artifact";
                                   ERun artifact None (Some env) (inl rc)] s)))
                else (Done tt,
                      set_world w
                        (emits [EPrint "Creating artifact";
                                ERun artifact None (Some env) (inl rc)] s))
            | inr x =>
                (Raise x,
                 set_world w
                   (emits [EPrint "Creating artifact";
                           ERun artifact None (Some env) (inr x)] s))
            end) as Hartifact.
  { unfold _create_artifact.
    rewrite (bind_Done _ _ _ _ _ (print_run _ s)).
    forward_environ Hd2g.
    rewrite (bind_Done _ _ _ _ _ (Hdict (emit (EPrint "Creating artifact") s)
                                    eq_refl eq_refl)).
    fold artifact. unfold bind, subprocess_run. simpl. rewrite Hspawn.
    destruct res as [rc|x].
    - case_decide.
      + rewrite _print_error_and_exit_run. unfold emits, emit, set_world.
        simpl. by rewrite <- !app_assoc.
      + unfold ret, emits, emit, set_world. simpl. by rewrite <- !app_assoc.
    - unfold emits, emit, set_world. simpl. by rewrite <- !app_assoc. }
  split_and!.
  - intros key. unfold env. rewrite lookup_union.
    by destruct (ac !! key), (environ s !! key).
  - intros rc -> Hrc. unfold _present_results.
    rewrite decide_True in Hartifact by done.
    by rewrite (bind_Exit _ _ _ _ _ Hartifact).
  - intros ->. rewrite decide_False in Hartifact by (by intros ?).
    unfold _present_results.
    rewrite (bind_Done _ _ _ _ _ Hartifact).
    forward_environ Hd2g.
    match goal with
    | |- context [bind (dict_environ1 acl) ?k ?s0] =>
        rewrite (bind_Done _ _ _ _ _ (Hdict s0 eq_refl eq_refl))
    end.
    fold report. unfold bind, subprocess_run. simpl.
    destruct (spawn report None (Some env) w) as [[rc|x] w'] eqn:Hreport;
      simpl.
    + case_decide.
      * rewrite _print_error_and_exit_run. simpl.
        exists (inl rc), (abort_lines "Failed to print student results").
        split; [|done]. by rewrite <- !app_assoc.
      * exists (inl rc), []. split; [|done]. simpl. by rewrite <- !app_assoc.
    + exists (inr x), []. split; [|done]. simpl. by rewrite <- !app_assoc.
Qed.

(** *** What the script touches *)


Lemma keeps_to_weaken {A} d2g (Q R : A → Prop) (m : Cmd A) :
  (∀ a, Q a → R a) → keeps_to d2g Q m → keeps_to d2g R m.
Proof.
  intros HQR Hm s Hd2g. destruct (Hm s Hd2g) as (He & HQ & Hd).
  split_and!; [done| |done]. intros a Ha. by apply HQR, HQ.
Qed.































End Pipeline.

(** ** The statements on the sample worlds *)

Abbreviation sample_main files failing :=
  (_main (sample_load files) (sample_exists sample_present)
     (sample_spawn failing) sample_upper).

(** The statements of [_main] before the revert, run one after the other
    on the sample assignment, where the programs of [failing] fail. *)
Ltac state_after H := lazymatch type of H with _ = (_, ?s) => s end.

Ltac sample_steps failing Hload Hdue Hcheckout Hrepo Hoverride Htasks Hloop
    Hpresent :=
  pose proof (run_result (_load_assignment_config (sample_load sample_files))
                sample_state (Done 0%nat) ltac:(vm_compute; reflexivity))
    as Hload;
  (let s1 := state_after Hload in
   assert ((getitem 0%nat "ASSIGNMENT_DUE_DATE" s1).1
           = Done "2024-05-01 23:59") as Hdue by (vm_compute; reflexivity);
   pose proof (run_result
                 (_checkout_due_date (sample_spawn failing) "2024-05-01 23:59")
                 s1 (Done tt) ltac:(vm_compute; reflexivity)) as Hcheckout);
  (let s2 := state_after Hcheckout in
   assert ((getitem 0%nat "ASSIGNMENT_TEMPLATE_REPOSITORY" s2).1
           = Done "https://example.org/template.git") as Hrepo
     by (vm_compute; reflexivity);
   pose proof (run_result
                 (_override_repo (sample_spawn failing) None
                    "https://example.org/template.git" None)
                 s2 (Done tt) ltac:(vm_compute; reflexivity)) as Hoverride);
  (let s3 := state_after Hoverride in
   assert ((getitem 0%nat "ASSIGNMENT_TASKS" s3).1 = Done "task1 task2")
     as Htasks by (vm_compute; reflexivity);
   pose proof (run_result
                 (for_each (str_split_space "task1 task2")
                    (λ task, _evaluate_task (sample_load sample_files)
                               (sample_exists sample_present)
                               (sample_spawn failing) sample_upper
                               task 0%nat))
                 s3 (Done tt) ltac:(vm_compute; reflexivity)) as Hloop);
  (let s4 := state_after Hloop in
   pose proof (run_result (_present_results (sample_spawn failing) 0%nat)
                 s4 (Done tt) ltac:(vm_compute; reflexivity)) as Hpresent).

(** Every step of the sample assignment goes well and the revert returns
    3: it is the last event, and the script ends with status 0. *)
Lemma revert_checkout_ends_completed_runs_witness :
  (sample_main sample_files revert_fails sample_state).1 = Done tt ∧
  exit_status (sample_main sample_files revert_fails sample_state).1 = 0 ∧
  last (trace (sample_main sample_files revert_fails sample_state).2)
  = Some (ERun ["/opt/d2g/scripts/revert_checkout.sh"] None None (inl 3)).
Proof.
  sample_steps revert_fails Hload Hdue Hcheckout Hrepo Hoverride Htasks Hloop
    Hpresent.
  destruct (proj1 (revert_checkout_ends_completed_runs
                     (sample_load sample_files) (sample_exists sample_present)
                     (sample_spawn revert_fails) sample_upper)
              _ _ _ _ _ _ _ _ _ _
              Hload Hdue Hcheckout Hrepo Hoverride Htasks Hloop Hpresent)
    as (d2g & Hd2g & Hrevert).
  assert (d2g = "/opt/d2g") as ->.
  { vm_compute in Hd2g. by injection Hd2g as <-. }
  edestruct (Hrevert (inl 3)) as [Hmain Hstatus].
  { vm_compute. reflexivity. }
  split_and!.
  - by rewrite Hmain.
  - exact (Hstatus 3 eq_refl).
  - rewrite Hmain. cbn [snd trace set_world emit].
    apply last_snoc.
Defined.

(** With a checkout that returns 1 the script gives up and the revert is
    never started. *)
Lemma revert_checkout_skipped_after_failed_checkout :
  (sample_main sample_files checkout_fails sample_state).1 = Exit (-1) ∧
  trace (sample_main sample_files checkout_fails sample_state).2
  = [EPrint "Loading assignment configuration";
     ELoad "assignment.yml" None (inl sample_assignment);
     EPrint "Checking out due date";
     ERun ["/opt/d2g/scripts/checkout_due_date.sh"; "2024-05-01 23:59"]
       None None (inl 1);
     EPrint "Failed to evaluate checkout commit";
     EPrint "usage: deploy_to_grading.py";
     EPrint "       Executes the Deploy-to-Grading pipeline. Make sure to";
     EPrint "       execute the script inside an assignment folder and";
     EPrint "       that the D2G_PATH env variable is set."] ∧
  ¬ ∃ d2g res,
      revert_event d2g res
      ∈ trace (sample_main sample_files checkout_fails sample_state).2.
Proof.
  assert (trace (sample_main sample_files checkout_fails sample_state).2
          = [EPrint "Loading assignment configuration";
             ELoad "assignment.yml" None (inl sample_assignment);
             EPrint "Checking out due date";
             ERun ["/opt/d2g/scripts/checkout_due_date.sh"; "2024-05-01 23:59"]
               None None (inl 1);
             EPrint "Failed to evaluate checkout commit";
             EPrint "usage: deploy_to_grading.py";
             EPrint "       Executes the Deploy-to-Grading pipeline. Make sure to";
             EPrint "       execute the script inside an assignment folder and";
             EPrint "       that the D2G_PATH env variable is set."]) as Htrace.
  { vm_compute. reflexivity. }
  split; [vm_compute; reflexivity|]. split; [exact Htrace|].
  intros (d2g & res & Hin). rewrite Htrace in Hin. unfold revert_event in Hin.
  repeat (apply elem_of_cons in Hin as [Heq|Hin]; [discriminate Heq|]).
  by apply elem_of_nil in Hin.
Qed.



(** The sample assignment without the file of its second task. *)
Lemma failed_load_stops_run_witness :
  (sample_main files_without_task2 [] sample_state).1 = Exit (-1) ∧
  exit_status (sample_main files_without_task2 [] sample_state).1 ≠ 0 ∧
  drop 21 (trace (sample_main files_without_task2 [] sample_state).2)
  = abort_lines ("Failed to load " +:+ "task2/task.yml") ∧
  Forall ok_event
    (take 20 (trace (sample_main files_without_task2 [] sample_state).2)).
Proof.
  apply (failed_load_stops_run
           (sample_load files_without_task2) (sample_exists sample_present)
           (sample_spawn []) sample_upper sample_state
           (sample_main files_without_task2 [] sample_state).1
           (sample_main files_without_task2 [] sample_state).2
           (take 20 (trace (sample_main files_without_task2 [] sample_state).2))
           "task2/task.yml" (Some "TASK2") FileNotFoundError).
  - apply surjective_pairing.
  - vm_compute. reflexivity.
  - left. reflexivity.
Defined.

(** The three ways a metric is found: [junit] has a shell script (and a
    Python script, which is not looked at), [checkstyle] a Python script
    only, [compile] neither. *)
Lemma metric_script_resolution_witness :
  _get_metric_script_path (sample_exists sample_present) "junit" sample_state
  = (Done ["/opt/d2g/scripts/metrics/junit.sh"],
     emits [EExists "/opt/d2g/scripts/metrics/junit.sh" true] sample_state) ∧
  _get_metric_script_path (sample_exists sample_present) "checkstyle" sample_state
  = (Done ["/opt/d2g/scripts/metrics/checkstyle.py"],
     emits [EExists "/opt/d2g/scripts/metrics/checkstyle.sh" false;
            EExists "/opt/d2g/scripts/metrics/checkstyle.py" true] sample_state) ∧
  _get_metric_script_path (sample_exists sample_present) "compile" sample_state
  = (Done ["./gradlew"; "compile"],
     emits [EExists "/opt/d2g/scripts/metrics/compile.sh" false;
            EExists "/opt/d2g/scripts/metrics/compile.py" false] sample_state).
Proof.
  assert (environ sample_state !! "D2G_PATH" = Some "/opt/d2g") as Hd2g.
  { vm_compute. reflexivity. }
  split; [|split].
  - exact (proj2 (metric_script_resolution (sample_exists sample_present)
                    "junit" "/opt/d2g" sample_state Hd2g)).
  - exact (proj2 (metric_script_resolution (sample_exists sample_present)
                    "checkstyle" "/opt/d2g" sample_state Hd2g)).
  - exact (proj2 (metric_script_resolution (sample_exists sample_present)
                    "compile" "/opt/d2g" sample_state Hd2g)).
Defined.

(** The run of the sample assignment in which every step goes well. *)
Lemma pipeline_steps_in_order_witness :
  ∃ d2g ac due_date repository tasks ts rc,
    environ sample_state !! "D2G_PATH" = Some d2g ∧
    ac !! "ASSIGNMENT_DUE_DATE" = Some due_date ∧
    ac !! "ASSIGNMENT_TEMPLATE_REPOSITORY" = Some repository ∧
    ac !! "ASSIGNMENT_TASKS" = Some tasks ∧
    Forall2 (task_steps sample_upper (environ sample_state) d2g ac)
      (str_split_space tasks) ts ∧
    trace (sample_main sample_files [] sample_state).2 =
      trace sample_state ++
      load_assignment_steps ac ++
      checkout_steps d2g due_date ++
      override_steps d2g None repository None ++
      concat ts ++
      present_steps d2g (ac ∪ environ sample_state) ++
      [revert_event d2g (inl rc)].
Proof.
  apply (pipeline_steps_in_order
           (sample_load sample_files) (sample_exists sample_present)
           (sample_spawn []) sample_upper sample_state).
  vm_compute. reflexivity.
Defined.



(** The configurations of the sample assignment: three loads, three
    dictionaries in the heap. *)
Lemma configurations_are_never_mutated_witness :
  ∃ ac tcs tasks,
    ac !! "ASSIGNMENT_TASKS" = Some tasks ∧
    loaded (trace (sample_main sample_files [] sample_state).2) = ac :: tcs ∧
    heap (sample_main sample_files [] sample_state).2
    = heap sample_state ++ ac :: tcs ∧
    length tcs = length (str_split_space tasks) ∧
    Forall (env_from_configs (environ sample_state) ac tcs)
      (trace (sample_main sample_files [] sample_state).2).
Proof.
  apply (proj2 (proj2 (proj2 (configurations_are_never_mutated
                                (sample_load sample_files)
                                (sample_exists sample_present)
                                (sample_spawn []) sample_upper)))
           sample_state).
  - vm_compute. reflexivity.
  - reflexivity.
Defined.

(** The evaluation of [task1] gets the environment of the process under
    the two configurations. *)
Lemma evaluation_environment_witness :
  ∃ res rest,
    trace (_evaluate_metrics (sample_spawn []) "task1" "junit checkstyle"
             1%nat 0%nat (loaded_state sample_task1)).2
    = trace (emit (EPrint ("Evaluating metrics for task " +:+ "task1"))
               (loaded_state sample_task1)) ++
      ERun [os_path_join "/opt/d2g" "scripts/evaluate_task.py"; "task1"]
        (Some "task1")
        (Some (sample_assignment ∪ sample_task1
               ∪ environ (loaded_state sample_task1))) res :: rest.
Proof.
  assert (sample_task1 ##ₘ sample_assignment) as Hdisj.
  { refine (bool_decide_unpack (sample_task1 ##ₘ sample_assignment) _).
    vm_compute. exact I. }
  assert (environ (loaded_state sample_task1) !! "D2G_PATH" = Some "/opt/d2g")
    as Hd2g.
  { vm_compute. reflexivity. }
  exact (proj1 (proj1 (evaluation_environment (sample_spawn [])
                         "task1" "junit checkstyle" 1%nat 0%nat
                         sample_task1 sample_assignment "/opt/d2g"
                         (loaded_state sample_task1) Hd2g eq_refl eq_refl)
                  Hdisj)).
Defined.

(** A task configuration with a key of the assignment configuration:
    the evaluation of the task raises [TypeError] and no evaluation
    process is started, whichever environment it would have got. *)
Lemma evaluation_refuses_common_key :
  ¬ colliding_task1 ##ₘ sample_assignment ∧
  (sample_main colliding_files [] sample_state).1
  = Raise (TypeError "dict() got multiple values for keyword argument") ∧
  drop 10 (trace (sample_main colliding_files [] sample_state).2)
  = [EPrint "Executing metric junit for task task1";
     EExists "/opt/d2g/scripts/metrics/junit.sh" true;
     ERun ["/opt/d2g/scripts/metrics/junit.sh"] (Some "task1") None (inl 0);
     EPrint "Executing metric checkstyle for task task1";
     EExists "/opt/d2g/scripts/metrics/checkstyle.sh" false;
     EExists "/opt/d2g/scripts/metrics/checkstyle.py" true;
     ERun ["/opt/d2g/scripts/metrics/checkstyle.py"] (Some "task1") None (inl 0);
     EPrint "Evaluating metrics for task task1"] ∧
  ¬ ∃ argv cwd env res,
      ERun argv cwd (Some env) res
      ∈ drop 10 (trace (sample_main colliding_files [] sample_state).2).
Proof.
  split_and!.
  - refine (proj1 (bool_decide_eq_false
                     (colliding_task1 ##ₘ sample_assignment)) _).
    vm_compute. reflexivity.
  - vm_compute. reflexivity.
  - vm_compute. reflexivity.
  - intros (argv & cwd & env & res & Hin).
    assert (drop 10 (trace (sample_main colliding_files [] sample_state).2)
            = [EPrint "Executing metric junit for task task1";
               EExists "/opt/d2g/scripts/metrics/junit.sh" true;
               ERun ["/opt/d2g/scripts/metrics/junit.sh"] (Some "task1") None (inl 0);
               EPrint "Executing metric checkstyle for task task1";
               EExists "/opt/d2g/scripts/metrics/checkstyle.sh" false;
               EExists "/opt/d2g/scripts/metrics/checkstyle.py" true;
               ERun ["/opt/d2g/scripts/metrics/checkstyle.py"] (Some "task1") None (inl 0);
               EPrint "Evaluating metrics for task task1"]) as Htrace.
    { vm_compute. reflexivity. }
    rewrite Htrace in Hin.
    repeat (apply elem_of_cons in Hin as [Heq|Hin]; [discriminate Heq|]).
    by apply elem_of_nil in Hin.
Qed.

(** An assignment whose task list is empty: after the override of the
    assignment the script turns to the task [""]. The same for the empty
    metric list of a task. *)
Lemma empty_list_is_one_empty_entry_witness :
  (∃ res rest,
     trace (sample_main (files_with_assignment assignment_with_no_task) []
              sample_state).2
     = trace (_override_repo (sample_spawn []) None
                "https://example.org/template.git" None
                (_checkout_due_date (sample_spawn []) "2024-05-01 23:59"
                   (alloc assignment_with_no_task
                      (emits (load_assignment_steps assignment_with_no_task)
                         sample_state))).2).2 ++
       EPrint "Loading task configuration for task " ::
       ELoad "task.yml" (Some (sample_upper "")) res :: rest) ∧
  (∃ probes argv res rest,
     trace (_execute_metrics (sample_exists sample_present) (sample_spawn [])
              "task1" "" sample_state).2
     = trace sample_state ++
       EPrint ("Executing metric  for task " +:+ "task1") ::
       probes ++ ERun argv (Some "task1") None res :: rest ∧
     Forall (λ e, ∃ path b, e = EExists path b) probes ∧
     (argv = [os_path_join "/opt/d2g" "scripts/metrics/" +:+ ".sh"] ∨
      argv = [os_path_join "/opt/d2g" "scripts/metrics/" +:+ ".py"] ∨
      argv = ["./gradlew"; ""])).
Proof.
  pose proof (empty_list_is_one_empty_entry
                (sample_load (files_with_assignment assignment_with_no_task))
                (sample_exists sample_present) (sample_spawn []) sample_upper)
    as (_ & _ & _ & Hmain & _ & Hmetrics).
  split.
  - apply (Hmain sample_state assignment_with_no_task "2024-05-01 23:59"
             "https://example.org/template.git"
             (_checkout_due_date (sample_spawn []) "2024-05-01 23:59"
                (alloc assignment_with_no_task
                   (emits (load_assignment_steps assignment_with_no_task)
                      sample_state))).2).
    + reflexivity.
    + vm_compute. reflexivity.
    + vm_compute. reflexivity.
    + vm_compute. reflexivity.
    + vm_compute. reflexivity.
    + vm_compute. reflexivity.
  - apply (Hmetrics "task1" "/opt/d2g" sample_state).
    vm_compute. reflexivity.
Defined.


(** ** The further statements on the sample worlds *)

(** The metric list of [task1] is cut into its two metrics. *)
Lemma split_space_round_trip_witness :
  str_split_space (str_join_space ["junit"; "checkstyle"])
  = ["junit"; "checkstyle"].
Proof.
  apply (proj2 (proj2 (proj2 split_space_round_trip))).
  - discriminate.
  - repeat constructor.
Defined.

(** With a failing [junit], the loop over [junit checkstyle] ends as
    [junit] does. *)
Lemma metrics_run_in_order_witness :
  _execute_metrics (sample_exists sample_present) (sample_spawn junit_fails)
    "task1" "junit checkstyle" sample_state
  = _execute_metric (sample_exists sample_present) (sample_spawn junit_fails)
      "task1" "junit" sample_state.
Proof.
  destruct (metrics_run_in_order (sample_exists sample_present)
              (sample_spawn junit_fails) "task1" "junit" "checkstyle"
              sample_state eq_refl) as (_ & _ & Hstops).
  rewrite (surjective_pairing
             (_execute_metric (sample_exists sample_present)
                (sample_spawn junit_fails) "task1" "junit" sample_state)).
  apply Hstops.
  - apply surjective_pairing.
  - vm_compute. discriminate.
Defined.

(** The override for [task1] and the one for the empty task name. *)
Lemma override_repo_routing_witness :
  (∃ res rest,
     trace (_override_repo (sample_spawn []) (Some "task1")
              "https://example.org/template.git" (Some 1%nat)
              (loaded_state sample_task1)).2
     = trace (loaded_state sample_task1) ++
       EPrint ("Overriding repository for task " +:+ "task1") ::
       ERun [os_path_join "/opt/d2g" "scripts/override_repo.py";
             "-t"; "task1"; "-r"; "https://example.org/template.git"]
         (Some "task1") (Some sample_task1) res :: rest) ∧
  (∃ res rest,
     trace (_override_repo (sample_spawn []) (Some "")
              "https://example.org/template.git" (Some 1%nat)
              (loaded_state sample_task1)).2
     = trace (loaded_state sample_task1) ++
       EPrint ("Overriding repository for task " +:+ pystr (Some "")) ::
       ERun [os_path_join "/opt/d2g" "scripts/override_repo.py";
             "-a"; "-r"; "https://example.org/template.git"]
         None None res :: rest).
Proof.
  destruct (override_repo_routing (sample_spawn [])
              "https://example.org/template.git" 1%nat sample_task1
              "/opt/d2g" (loaded_state sample_task1))
    as [Htask Hassignment].
  - vm_compute. reflexivity.
  - reflexivity.
  - split.
    + apply (Htask "task1"). discriminate.
    + apply (Hassignment (Some "") (Some 1%nat)). right. reflexivity.
Defined.

(** The sample assignment without [D2G_PATH]. *)
Lemma no_process_without_D2G_PATH_witness :
  (sample_main sample_files [] state_without_D2G_PATH).1
  = Raise (KeyError "D2G_PATH") ∧
  exit_status (sample_main sample_files [] state_without_D2G_PATH).1 = 1 ∧
  trace (sample_main sample_files [] state_without_D2G_PATH).2
  = trace state_without_D2G_PATH ++ load_assignment_steps sample_assignment ++
    [EPrint "Checking out due date"].
Proof.
  destruct (no_process_without_D2G_PATH
              (sample_load sample_files) (sample_exists sample_present)
              (sample_spawn []) sample_upper state_without_D2G_PATH
              (sample_main sample_files [] state_without_D2G_PATH).1
              (sample_main sample_files [] state_without_D2G_PATH).2)
    as (_ & _ & Hcheckout).
  - vm_compute. reflexivity.
  - apply surjective_pairing.
  - apply (Hcheckout sample_assignment "2024-05-01 23:59").
    + reflexivity.
    + vm_compute. reflexivity.
Defined.

(** A machine without [./gradlew]: the metric [compile] of [task2] cannot
    be started. *)
Lemma collaborator_exception_ends_run_witness :
  (_main (sample_load sample_files) (sample_exists sample_present)
     (sample_spawn_missing ["./gradlew"] []) sample_upper sample_state).1
  = Raise FileNotFoundError ∧
  exit_status
    (_main (sample_load sample_files) (sample_exists sample_present)
       (sample_spawn_missing ["./gradlew"] []) sample_upper sample_state).1
  = 1 ∧
  drop 27
    (trace (_main (sample_load sample_files) (sample_exists sample_present)
              (sample_spawn_missing ["./gradlew"] []) sample_upper
              sample_state).2)
  = [].
Proof.
  apply (collaborator_exception_ends_run
           (sample_load sample_files) (sample_exists sample_present)
           (sample_spawn_missing ["./gradlew"] []) sample_upper sample_state
           (_main (sample_load sample_files) (sample_exists sample_present)
              (sample_spawn_missing ["./gradlew"] []) sample_upper
              sample_state).1
           (_main (sample_load sample_files) (sample_exists sample_present)
              (sample_spawn_missing ["./gradlew"] []) sample_upper
              sample_state).2
           (take 26
              (trace (_main (sample_load sample_files)
                        (sample_exists sample_present)
                        (sample_spawn_missing ["./gradlew"] []) sample_upper
                        sample_state).2))
           (ERun ["./gradlew"; "compile"] (Some "task2") None
              (inr FileNotFoundError))).
  - apply surjective_pairing.
  - vm_compute. reflexivity.
  - reflexivity.
Defined.

(** The failed [junit] of [task1], and a directory without
    [assignment.yml] when [D2G_PATH] is not set. *)
Lemma abort_message_names_failed_step_witness :
  (∃ good bad msg,
     trace (sample_main sample_files junit_fails sample_state).2
     = trace sample_state ++ good ++ bad :: abort_lines msg ∧
     step_failure "/opt/d2g" bad msg) ∧
  (∃ good bad msg,
     trace (sample_main [] [] state_without_D2G_PATH).2
     = trace state_without_D2G_PATH ++ good ++ bad :: abort_lines msg ∧
     ∃ x, caught x = true ∧
          bad = ELoad "assignment.yml" None (inr x) ∧
          msg = "Failed to load assignment.yml").
Proof.
  split.
  - destruct (abort_message_names_failed_step
                (sample_load sample_files) (sample_exists sample_present)
                (sample_spawn junit_fails) sample_upper sample_state (-1)
                (sample_main sample_files junit_fails sample_state).2)
      as (_ & _ & good & bad & msg & Htrace & Hstep).
    + apply run_result. vm_compute. reflexivity.
    + exists good, bad, msg. split; [exact Htrace|exact Hstep].
  - destruct (abort_message_names_failed_step
                (sample_load []) (sample_exists sample_present)
                (sample_spawn []) sample_upper state_without_D2G_PATH (-1)
                (sample_main [] [] state_without_D2G_PATH).2)
      as (_ & _ & good & bad & msg & Htrace & Hstep).
    + apply run_result. vm_compute. reflexivity.
    + exists good, bad, msg. split; [exact Htrace|exact Hstep].
Defined.

(** An artifact script that returns 4: the results are not printed. *)
Lemma results_after_artifact_witness :
  _present_results (sample_spawn artifact_fails) 0%nat
    (loaded_state sample_task1)
  = (Exit (-1),
     emits (abort_lines "Failed to execute create_artifact.sh")
       (set_world 1%nat
          (emits [EPrint "Creating artifact";
                  ERun [os_path_join "/opt/d2g" "scripts/create_artifact.sh"]
                    None
                    (Some (sample_assignment ∪
                           environ (loaded_state sample_task1)))
                    (inl 4)]
             (loaded_state sample_task1)))).
Proof.
  destruct (results_after_artifact (sample_spawn artifact_fails) 0%nat
              sample_assignment "/opt/d2g" (loaded_state sample_task1)
              (inl 4) 1%nat) as (_ & Hfails & _).
  - vm_compute. reflexivity.
  - reflexivity.
  - reflexivity.
  - apply (Hfails 4); [reflexivity|discriminate].
Defined.

